(** * trainctl_wrapper: the Python facade over the trainctl command line

    A shallow embedding of [scripts/trainctl_wrapper.py]: the binary lookup of
    [Trainctl.__init__], the invoker and response decoder [Trainctl._run], and
    the command builders of [AWSCommands], [ResourceCommands] and
    [CheckpointCommands], followed by the properties the specification states
    about them.

    Conventions of the embedding.
    - A Python [str] is a [string], one [ascii] per character; the characters
      are the code points U+0000 to U+00FF.
    - A Python [int] is a [Z], a [float] a primitive IEEE 754 binary64.
    - The operating system is a record of oracles ([World]); the calls the
      wrapper makes to [subprocess.run] are logged in it, in order.
    - A call either returns a value or raises ([result]). *)

From Stdlib Require Import String Ascii List ZArith Bool Lia DecimalString.
From Stdlib Require Import Floats.PrimFloat Floats.SpecFloat Floats.FloatOps.
Import ListNotations.

Local Open Scope list_scope.
Local Open Scope string_scope.

Set Implicit Arguments.

(* ================================================================== *)
(** ** The Python runtime the wrapper relies on *)

Module Py.

(** The newline of the f-strings. *)
Definition nl : string := String (ascii_of_nat 10) EmptyString.

(** [str.isspace] on one character, for the code points below U+0100:
    TAB, LF, VT, FF, CR, the separators FS, GS, RS, US, SPACE, NEL and
    NO-BREAK SPACE. *)
Definition isspace (c : ascii) : bool :=
  let n := nat_of_ascii c in
  (((9 <=? n) && (n <=? 13)) || ((28 <=? n) && (n <=? 32))
   || (n =? 133) || (n =? 160))%nat.

Fixpoint lstrip (s : string) : string :=
  match s with
  | EmptyString => EmptyString
  | String c s' => if isspace c then lstrip s' else s
  end.

Fixpoint rstrip (s : string) : string :=
  match s with
  | EmptyString => EmptyString
  | String c s' =>
      match rstrip s' with
      | EmptyString => if isspace c then EmptyString else String c EmptyString
      | r => String c r
      end
  end.

(** [s.strip()]. *)
Definition strip (s : string) : string := rstrip (lstrip s).

(** [sep.join(xs)]. *)
Definition join (sep : string) (xs : list string) : string :=
  String.concat sep xs.

(** [str(n)] for an [int]. *)
Definition str_int (n : Z) : string := NilZero.string_of_int (Z.to_int n).

(** [needle in hay] for two strings. *)
Definition contains (needle hay : string) : Prop :=
  exists pre post, hay = pre ++ needle ++ post.

(** Truth value of an object in a condition, per type. *)
Definition truthy_str (s : string) : bool :=
  match s with EmptyString => false | _ => true end.
Definition truthy_int (n : Z) : bool := negb (n =? 0)%Z.
Definition truthy_float (x : float) : bool := negb (PrimFloat.eqb x 0%float).
Definition truthy_list {A} (l : list A) : bool :=
  match l with [] => false | _ => true end.

(** Truth value of an [Optional[T]] argument: [None] is false, any other
    object has the truth value of its type. *)
Definition truthy_opt {A} (truthy : A -> bool) (o : option A) : bool :=
  match o with
  | None => false
  | Some a => truthy a
  end.

(** The values a call can return: what [json.loads] builds, which also
    covers the dictionaries [_run] makes itself. A [dict] keeps its items
    in insertion order. *)
#[warnings="-register-all"]
Inductive value : Type :=
| VNone
| VBool (b : bool)
| VInt (n : Z)
| VFloat (literal : string)
| VStr (s : string)
| VList (items : list value)
| VDict (items : list (string * value)).

(** Exceptions. [TrainctlError] is the wrapper's own class; the others come
    from [subprocess] and [json]. [OtherError] stands for any exception the
    wrapper has no handler for (a [PermissionError], for one). *)
Inductive exn : Type :=
| FileNotFoundError
| CalledProcessError (returncode : Z) (cmd : list string)
                     (output stderr : string)
| JSONDecodeError
| OtherError (name : string)
| TrainctlError (msg : string).

Inductive result (A : Type) : Type :=
| Return (a : A)
| Raise (e : exn).
Arguments Raise {A} e.

(** What the runtime library computes and the repository does not define:
    [json.loads] on a [str], and [str] on a [float]. *)
Class Runtime : Type := {
  json_loads : string -> result value;
  str_float : float -> string
}.

End Py.
Import Py.

(* ================================================================== *)
(** ** The operating system *)

(** [pathlib.Path], POSIX flavour: an anchor (empty or the root) and the
    components below it. *)
Record Path : Type := mkPath { anchor : string; parts : list string }.

(** [p.parent]: the path without its last component; a path with no
    component is its own parent. *)
Definition parent (p : Path) : Path :=
  mkPath (anchor p) (removelast (parts p)).

(** [p / name] for a relative one-component [name]. *)
Definition joinpath (p : Path) (name : string) : Path :=
  mkPath (anchor p) (parts p ++ [name])%list.

(** [str(p)]. *)
Definition str_path (p : Path) : string :=
  match parts p, anchor p with
  | [], EmptyString => "."
  | _, _ => anchor p ++ join "/" (parts p)
  end.

(** How an attempt to run a command line ends: the program is not there,
    the attempt fails for another reason, or the child runs and exits. *)
Inductive Outcome : Type :=
| NotFound
| Failed (name : string)
| Exited (returncode : Z) (stdout stderr : string).

Record World : Type := mkWorld {
  (** what running a command line gives, with output captured as text *)
  run_process : list string -> Outcome;
  (** [shutil.which] *)
  which : string -> option string;
  (** [Path.exists] *)
  path_exists : Path -> bool;
  (** [Path(__file__)] of the wrapper module *)
  module_file : Path;
  (** the command lines handed to [subprocess.run] so far, oldest first *)
  spawned : list (list string)
}.

Definition log_spawn (w : World) (cmd : list string) : World :=
  mkWorld (run_process w) (which w) (path_exists w) (module_file w)
          (spawned w ++ [cmd])%list.

(** [subprocess.CompletedProcess]. *)
Record CompletedProcess : Type := mkCompleted {
  cp_args : list string;
  returncode : Z;
  stdout : string;
  stderr : string
}.

(** [subprocess.run(cmd, capture_output=True, text=True, check=check)]:
    with [check] a non-zero exit status raises [CalledProcessError], which
    carries the captured streams. *)
Definition subprocess_run (w : World) (cmd : list string) (check : bool)
  : World * result CompletedProcess :=
  let w' := log_spawn w cmd in
  match run_process w cmd with
  | NotFound => (w', Raise FileNotFoundError)
  | Failed name => (w', Raise (OtherError name))
  | Exited rc out err =>
      if check && negb (rc =? 0)%Z
      then (w', Raise (CalledProcessError rc cmd out err))
      else (w', Return (mkCompleted cmd rc out err))
  end.

(* ================================================================== *)
(** ** class Trainctl *)

Module Trainctl.
Section WithRuntime.
Context {rt : Runtime}.

(** The attributes of an instance. The capability groups [aws], [resources]
    and [checkpoint] hold nothing but a reference back to it, so their
    methods take the instance itself. *)
Record t : Type := mk { binary : string; output_format : string }.

(** [Path(__file__).parent.parent / "target" / profile / "trainctl"]. *)
Definition target_bin (w : World) (profile : string) : Path :=
  joinpath (joinpath (joinpath (parent (parent (module_file w))) "target")
                     profile) "trainctl".

(** [Trainctl.__init__(binary, output_format)]. *)
Definition __init__ (w : World) (binary : option string)
                    (output_format : string) : t :=
  let binary :=
    match binary with
    | None =>
        if truthy_opt truthy_str (which w "trainctl") then "trainctl"
        else
          let target_bin_release := target_bin w "release" in
          if path_exists w target_bin_release
          then str_path target_bin_release
          else
            let target_bin_debug := target_bin w "debug" in
            if path_exists w target_bin_debug
            then str_path target_bin_debug
            else "trainctl"
    | Some binary => binary
    end in
  mk binary output_format.

(** The command line of [_run]: the binary, the arguments, and the format
    pair when the instance asks for JSON. *)
Definition command (self : t) (args : list string) : list string :=
  let cmd := ([binary self] ++ args)%list in
  if output_format self =? "json"
  then (cmd ++ ["--output"; "json"])%list
  else cmd.

(** The body of the [try] statement of [_run]. *)
Definition _run_try (self : t) (cmd : list string) (check : bool)
                    (w : World) : World * result value :=
  match subprocess_run w cmd check with
  | (w', Raise e) => (w', Raise e)
  | (w', Return result) =>
      (w',
       if negb (returncode result =? 0)%Z then
         if check then
           Raise (TrainctlError
                    ("trainctl failed: " ++ stderr result ++ nl ++
                     "Command: " ++ join " " cmd))
         else
           Return (VDict [("error", VStr (stderr result));
                          ("exit_code", VInt (returncode result))])
       else if negb (truthy_str (strip (stdout result))) then
         Return (VDict [])
       else if output_format self =? "json" then
         match json_loads (stdout result) with
         | Raise JSONDecodeError =>
             Return (VDict [("output", VStr (stdout result))])
         | r => r
         end
       else
         Return (VDict [("output", VStr (stdout result))]))
  end.

(** [Trainctl._run(args, check)]: the [try] body under its two handlers;
    any other exception propagates. *)
Definition _run (self : t) (args : list string) (check : bool)
                (w : World) : World * result value :=
  let cmd := command self args in
  match _run_try self cmd check w with
  | (w', Raise FileNotFoundError) =>
      (w', Raise (TrainctlError
                    ("trainctl binary not found: " ++ binary self ++ nl ++
                     "Install with: cargo install --path .")))
  | (w', Raise (CalledProcessError _ _ _ e_stderr)) =>
      (w', Raise (TrainctlError
                    ("trainctl command failed: " ++ e_stderr ++ nl ++
                     "Command: " ++ join " " cmd)))
  | r => r
  end.

(** [Trainctl.version()]. *)
Definition version (self : t) (w : World) : World * result value :=
  _run self ["--version"] false w.

End WithRuntime.
End Trainctl.

(* ================================================================== *)
(** ** The command builders *)

(** [if flag: args.append(token)]. *)
Definition append_if (flag : bool) (token : string) (args : list string)
  : list string :=
  if flag then (args ++ [token])%list else args.

(** [if opt: args.extend(extra)], where [extra] is made from the value of
    [opt]. The test is the truth value of the argument, not [is not None]. *)
Definition extend_if {A} (truthy : A -> bool) (opt : option A)
                     (extra : A -> list string) (args : list string)
  : list string :=
  match opt with
  | Some a => if truthy a then (args ++ extra a)%list else args
  | None => args
  end.

Module AWSCommands.
Section WithRuntime.
Context {rt : Runtime}.

Definition create_instance_args
    (instance_type : string) (spot : bool) (spot_max_price : option float)
    (ami_id project_name : option string) : list string :=
  let args := ["aws"; "create"; "--instance-type"; instance_type] in
  let args := append_if spot "--spot" args in
  let args := extend_if truthy_float spot_max_price
                (fun p => ["--spot-max-price"; str_float p]) args in
  let args := extend_if truthy_str ami_id
                (fun a => ["--ami-id"; a]) args in
  let args := extend_if truthy_str project_name
                (fun n => ["--project-name"; n]) args in
  args.

Definition create_instance (self : Trainctl.t)
    (instance_type : string) (spot : bool) (spot_max_price : option float)
    (ami_id project_name : option string) (w : World) :=
  Trainctl._run self
    (create_instance_args instance_type spot spot_max_price ami_id
                          project_name) true w.

Definition train_args
    (instance_id script : string) (data_s3 : option string)
    (sync_code : bool) (project_name : option string)
    (args : option (list string)) : list string :=
  let cmd_args := ["aws"; "train"; instance_id; script] in
  let cmd_args := extend_if truthy_str data_s3
                    (fun d => ["--data-s3"; d]) cmd_args in
  let cmd_args := append_if sync_code "--sync-code" cmd_args in
  let cmd_args := extend_if truthy_str project_name
                    (fun n => ["--project-name"; n]) cmd_args in
  let cmd_args := extend_if truthy_list args
                    (fun a => (["--"] ++ a)%list) cmd_args in
  cmd_args.

Definition train (self : Trainctl.t)
    (instance_id script : string) (data_s3 : option string)
    (sync_code : bool) (project_name : option string)
    (args : option (list string)) (w : World) :=
  Trainctl._run self
    (train_args instance_id script data_s3 sync_code project_name args)
    true w.

Definition stop_args (instance_id : string) (force : bool) : list string :=
  let args := ["aws"; "stop"; instance_id] in
  append_if force "--force" args.

Definition stop (self : Trainctl.t) (instance_id : string) (force : bool)
                (w : World) :=
  Trainctl._run self (stop_args instance_id force) true w.

Definition terminate_args (instance_id : string) (force : bool)
  : list string :=
  let args := ["aws"; "terminate"; instance_id] in
  append_if force "--force" args.

Definition terminate (self : Trainctl.t) (instance_id : string)
                     (force : bool) (w : World) :=
  Trainctl._run self (terminate_args instance_id force) true w.

Definition monitor_args (instance_id : string) (follow : bool)
  : list string :=
  let args := ["aws"; "monitor"; instance_id] in
  append_if follow "--follow" args.

Definition monitor (self : Trainctl.t) (instance_id : string)
                   (follow : bool) (w : World) :=
  Trainctl._run self (monitor_args instance_id follow) true w.

Definition processes_args (instance_id : string) (watch : bool)
  : list string :=
  let args := ["aws"; "processes"; instance_id] in
  append_if watch "--watch" args.

Definition processes (self : Trainctl.t) (instance_id : string)
                     (watch : bool) (w : World) :=
  Trainctl._run self (processes_args instance_id watch) true w.

End WithRuntime.
End AWSCommands.

Module ResourceCommands.
Section WithRuntime.
Context {rt : Runtime}.

Definition list_args (platform : option string) (detailed : bool)
                     (limit : option Z) : list string :=
  let args := ["resources"; "list"] in
  let args := extend_if truthy_str platform
                (fun p => ["--platform"; p]) args in
  let args := append_if detailed "--detailed" args in
  let args := extend_if truthy_int limit
                (fun n => ["--limit"; str_int n]) args in
  args.

Definition summary (self : Trainctl.t) (w : World) :=
  Trainctl._run self ["resources"; "summary"] true w.

Definition stop_all_args (force : bool) : list string :=
  let args := ["resources"; "stop-all"] in
  append_if force "--force" args.

Definition stop_all (self : Trainctl.t) (force : bool) (w : World) :=
  Trainctl._run self (stop_all_args force) true w.

Definition list (self : Trainctl.t) (platform : option string)
                (detailed : bool) (limit : option Z) (w : World) :=
  Trainctl._run self (list_args platform detailed limit) true w.

End WithRuntime.
End ResourceCommands.

Module CheckpointCommands.
Section WithRuntime.
Context {rt : Runtime}.

Definition info (self : Trainctl.t) (path : string) (w : World) :=
  Trainctl._run self ["checkpoint"; "info"; path] true w.

Definition list (self : Trainctl.t) (directory : string) (w : World) :=
  Trainctl._run self ["checkpoint"; "list"; directory] true w.

End WithRuntime.
End CheckpointCommands.

(* ================================================================== *)
(** ** A JSON decoder for the runtime

    [json.loads] is a parameter of the development ([Runtime]). To run the
    wrapper on concrete outputs the parameter is instantiated with the decoder
    below, which follows the grammar [json.decoder] accepts: the four
    whitespace characters, the literals (with [NaN], [Infinity] and
    [-Infinity]), numbers, strings with escapes and without raw control
    characters, arrays and objects, and nothing after the document. A
    [\uXXXX] escape above U+00FF names a character the embedding does not
    have; the decoder answers [Beyond] there. *)

Module Json.

Inductive parse (A : Type) : Type :=
| Ok (a : A) (rest : string)
| Err
| Beyond
| Exhausted.
Arguments Err {A}.
Arguments Beyond {A}.
Arguments Exhausted {A}.

Definition bind {A B} (p : parse A) (k : A -> string -> parse B) : parse B :=
  match p with
  | Ok a rest => k a rest
  | Err => Err
  | Beyond => Beyond
  | Exhausted => Exhausted
  end.

Definition is_ws (c : ascii) : bool :=
  let n := nat_of_ascii c in
  ((n =? 32) || (n =? 9) || (n =? 10) || (n =? 13))%nat.

Fixpoint skip_ws (s : string) : string :=
  match s with
  | EmptyString => EmptyString
  | String c s' => if is_ws c then skip_ws s' else s
  end.

Definition is_digit (c : ascii) : bool :=
  let n := nat_of_ascii c in ((48 <=? n) && (n <=? 57))%nat.

Definition hexval (c : ascii) : option nat :=
  let n := nat_of_ascii c in
  if ((48 <=? n) && (n <=? 57))%nat then Some (n - 48)
  else if ((65 <=? n) && (n <=? 70))%nat then Some (n - 55)
  else if ((97 <=? n) && (n <=? 102))%nat then Some (n - 87)
  else None.

(** The one-character escapes of a string. *)
Definition unescape (c : ascii) : option ascii :=
  let n := nat_of_ascii c in
  if (n =? 34)%nat then Some c                         (* quote *)
  else if (n =? 92)%nat then Some c                    (* backslash *)
  else if (n =? 47)%nat then Some c                    (* slash *)
  else if (n =? 98)%nat then Some (ascii_of_nat 8)     (* b *)
  else if (n =? 102)%nat then Some (ascii_of_nat 12)   (* f *)
  else if (n =? 110)%nat then Some (ascii_of_nat 10)   (* n *)
  else if (n =? 114)%nat then Some (ascii_of_nat 13)   (* r *)
  else if (n =? 116)%nat then Some (ascii_of_nat 9)    (* t *)
  else None.

Definition cons_char (c : ascii) (p : parse string) : parse string :=
  bind p (fun s rest => Ok (String c s) rest).

(** The rest of a string after its opening quote, strict mode. *)
Fixpoint scanstring (s : string) : parse string :=
  match s with
  | EmptyString => Err
  | String c s1 =>
      if (nat_of_ascii c =? 34)%nat then Ok EmptyString s1
      else if (nat_of_ascii c =? 92)%nat then
        match s1 with
        | EmptyString => Err
        | String e s2 =>
            if (nat_of_ascii e =? 117)%nat then
              match s2 with
              | String h1 (String h2 (String h3 (String h4 s3))) =>
                  match hexval h1, hexval h2, hexval h3, hexval h4 with
                  | Some a, Some b, Some c', Some d =>
                      let cp := (((a * 16 + b) * 16 + c') * 16 + d)%nat in
                      if (cp <? 256)%nat
                      then cons_char (ascii_of_nat cp) (scanstring s3)
                      else Beyond
                  | _, _, _, _ => Err
                  end
              | _ => Err
              end
            else
              match unescape e with
              | Some ch => cons_char ch (scanstring s2)
              | None => Err
              end
        end
      else if (nat_of_ascii c <? 32)%nat then Err
      else cons_char c (scanstring s1)
  end.

(** The longest run of digits at the head of a string. *)
Fixpoint digits (s : string) : string * string :=
  match s with
  | EmptyString => (EmptyString, EmptyString)
  | String c s' =>
      if is_digit c
      then let (d, rest) := digits s' in (String c d, rest)
      else (EmptyString, s)
  end.

(** A natural number: [0], or a digit from 1 to 9 and then digits. *)
Definition match_natural (s : string) : option (string * string) :=
  match s with
  | EmptyString => None
  | String c s' =>
      if (nat_of_ascii c =? 48)%nat then Some (String c EmptyString, s')
      else if is_digit c
      then let (d, rest) := digits s' in Some (String c d, rest)
      else None
  end.

(** An optional minus sign and a natural number. *)
Definition match_integer (s : string) : option (string * string) :=
  match s with
  | String c s' =>
      if (nat_of_ascii c =? 45)%nat then
        match match_natural s' with
        | Some (d, rest) => Some (String c d, rest)
        | None => None
        end
      else match_natural s
  | EmptyString => None
  end.

(** An optional fraction: a point and one digit or more. *)
Definition match_frac (s : string) : string * string :=
  match s with
  | String c s' =>
      if (nat_of_ascii c =? 46)%nat then
        match digits s' with
        | (EmptyString, _) => (EmptyString, s)
        | (d, rest) => (String c d, rest)
        end
      else (EmptyString, s)
  | EmptyString => (EmptyString, s)
  end.

(** An optional exponent: [e] or [E], an optional sign, one digit or more. *)
Definition match_exp (s : string) : string * string :=
  match s with
  | String e s' =>
      if ((nat_of_ascii e =? 101) || (nat_of_ascii e =? 69))%nat then
        match s' with
        | String sg s'' =>
            if ((nat_of_ascii sg =? 45) || (nat_of_ascii sg =? 43))%nat then
              match digits s'' with
              | (EmptyString, _) => (EmptyString, s)
              | (d, rest) => (String e (String sg d), rest)
              end
            else
              match digits s' with
              | (EmptyString, _) => (EmptyString, s)
              | (d, rest) => (String e d, rest)
              end
        | EmptyString => (EmptyString, s)
        end
      else (EmptyString, s)
  | EmptyString => (EmptyString, s)
  end.

(** [int(lexeme)] for a lexeme of [match_integer]. *)
Fixpoint nat_of_digits (acc : Z) (s : string) : Z :=
  match s with
  | EmptyString => acc
  | String c s' =>
      nat_of_digits (acc * 10 + Z.of_nat (nat_of_ascii c - 48)) s'
  end.

Definition int_of_lexeme (s : string) : Z :=
  match s with
  | String c s' =>
      if (nat_of_ascii c =? 45)%nat then (- nat_of_digits 0 s')%Z
      else nat_of_digits 0 s
  | EmptyString => 0%Z
  end.

Definition match_number (s : string) : option (value * string) :=
  match match_integer s with
  | None => None
  | Some (i, rest) =>
      let (f, rest) := match_frac rest in
      let (e, rest) := match_exp rest in
      match f, e with
      | EmptyString, EmptyString => Some (VInt (int_of_lexeme i), rest)
      | _, _ => Some (VFloat (i ++ f ++ e), rest)
      end
  end.

(** [s] without the prefix [p], when it starts with it. *)
Fixpoint strip_prefix (p s : string) : option string :=
  match p, s with
  | EmptyString, _ => Some s
  | String a p', String b s' =>
      if Ascii.eqb a b then strip_prefix p' s' else None
  | String _ _, EmptyString => None
  end.

Definition literals : list (string * value) :=
  [("null", VNone); ("true", VBool true); ("false", VBool false)].

Definition constants : list (string * value) :=
  [("NaN", VFloat "NaN"); ("Infinity", VFloat "Infinity");
   ("-Infinity", VFloat "-Infinity")].

Fixpoint match_word (table : list (string * value)) (s : string)
  : option (value * string) :=
  match table with
  | [] => None
  | (word, v) :: table' =>
      match strip_prefix word s with
      | Some rest => Some (v, rest)
      | None => match_word table' s
      end
  end.

(** [d[key] = v] on the items of a [dict]. *)
Fixpoint dict_set (items : list (string * value)) (key : string) (v : value)
  : list (string * value) :=
  match items with
  | [] => [(key, v)]
  | (k, old) :: items' =>
      if k =? key then (k, v) :: items'
      else (k, old) :: dict_set items' key v
  end.

(** The next character must be [c]. *)
Definition expect (c : nat) (s : string) : parse unit :=
  match s with
  | String c' s' => if (nat_of_ascii c' =? c)%nat then Ok tt s' else Err
  | EmptyString => Err
  end.

(** One value at the head of the input; [members] reads an object from the
    first character of a key on, [elements] an array from the first
    character of an element on. The fuel bounds the calls; [loads] gives
    enough of it ([JsonFacts.loads_fuel]). *)
Fixpoint scan_once (fuel : nat) (s : string) : parse value :=
  match fuel with
  | O => Exhausted
  | S fuel' =>
      match s with
      | EmptyString => Err
      | String c s' =>
          if (nat_of_ascii c =? 34)%nat then
            bind (scanstring s') (fun str rest => Ok (VStr str) rest)
          else if (nat_of_ascii c =? 123)%nat then
            match skip_ws s' with
            | String c1 s1 =>
                if (nat_of_ascii c1 =? 125)%nat then Ok (VDict []) s1
                else if (nat_of_ascii c1 =? 34)%nat
                then members fuel' [] s1
                else Err
            | EmptyString => Err
            end
          else if (nat_of_ascii c =? 91)%nat then
            match skip_ws s' with
            | String c1 s1 =>
                if (nat_of_ascii c1 =? 93)%nat then Ok (VList []) s1
                else elements fuel' [] (String c1 s1)
            | EmptyString => Err
            end
          else
            match match_word literals s with
            | Some (v, rest) => Ok v rest
            | None =>
                match match_number s with
                | Some (v, rest) => Ok v rest
                | None =>
                    match match_word constants s with
                    | Some (v, rest) => Ok v rest
                    | None => Err
                    end
                end
            end
      end
  end
with members (fuel : nat) (acc : list (string * value)) (s : string)
  : parse value :=
  match fuel with
  | O => Exhausted
  | S fuel' =>
      bind (scanstring s) (fun key rest =>
      bind (expect 58 (skip_ws rest)) (fun _ rest =>
      bind (scan_once fuel' (skip_ws rest)) (fun v rest =>
      let acc := dict_set acc key v in
      match skip_ws rest with
      | String c rest =>
          if (nat_of_ascii c =? 125)%nat then Ok (VDict acc) rest
          else if (nat_of_ascii c =? 44)%nat then
            bind (expect 34 (skip_ws rest)) (fun _ rest =>
            members fuel' acc rest)
          else Err
      | EmptyString => Err
      end)))
  end
with elements (fuel : nat) (acc : list value) (s : string) : parse value :=
  match fuel with
  | O => Exhausted
  | S fuel' =>
      bind (scan_once fuel' s) (fun v rest =>
      let acc := (acc ++ [v])%list in
      match skip_ws rest with
      | String c rest =>
          if (nat_of_ascii c =? 93)%nat then Ok (VList acc) rest
          else if (nat_of_ascii c =? 44)%nat
          then elements fuel' acc (skip_ws rest)
          else Err
      | EmptyString => Err
      end)
  end.

(** [json.loads(s)]: one document between optional whitespace. *)
Definition loads (s : string) : result value :=
  match scan_once (S (2 * String.length s)) (skip_ws s) with
  | Ok v rest =>
      match skip_ws rest with
      | EmptyString => Return v
      | _ => Raise JSONDecodeError
      end
  | Err => Raise JSONDecodeError
  | Beyond => Raise (OtherError "character above U+00FF")
  | Exhausted => Raise (OtherError "RecursionError")
  end.

End Json.

(* ================================================================== *)
(** ** A runtime for the examples *)

Module Sample.

(** [n] zeros. *)
Fixpoint zeros (n : nat) : string :=
  match n with
  | O => EmptyString
  | S n' => String "0" (zeros n')
  end.

(** A run of digits without its trailing zeros. *)
Fixpoint drop_trailing_zeros (s : string) : string :=
  match s with
  | EmptyString => EmptyString
  | String c s' =>
      match drop_trailing_zeros s' with
      | EmptyString =>
          if Ascii.eqb c "0" then EmptyString else String c EmptyString
      | r => String c r
      end
  end.

(** The decimal expansion of [m * 2^e], in full. *)
Definition expansion (m : positive) (e : Z) : string :=
  if (0 <=? e)%Z then str_int (Z.pos m * 2 ^ e) ++ ".0"
  else
    let k := Z.to_nat (- e) in
    let n := (Z.pos m * 5 ^ (- e))%Z in
    let whole := (n / 10 ^ (- e))%Z in
    let part := str_int (n mod 10 ^ (- e)) in
    let frac := drop_trailing_zeros
                  (zeros (k - String.length part) ++ part) in
    str_int whole ++ "." ++
    match frac with EmptyString => "0" | _ => frac end.

(** The exact decimal expansion of a float. It is what [str] gives for a
    float whose expansion has at most 15 significant digits and lies
    between 1e-4 and 1e16 in magnitude (0.5, 0.25, 3.0); for the other
    finite floats [str] gives a shorter or an exponent form, which the
    examples stay away from. *)
Definition str_float (x : float) : string :=
  match Prim2SF x with
  | S754_zero sign => if sign then "-0.0" else "0.0"
  | S754_infinity sign => if sign then "-inf" else "inf"
  | S754_nan => "nan"
  | S754_finite sign m e =>
      (if sign then "-" else "") ++ expansion m e
  end.

#[export] Instance runtime : Runtime := {
  json_loads := Json.loads;
  str_float := str_float
}.

(** The double quote, for the JSON documents of the examples. *)
Definition dq : string := String (ascii_of_nat 34) EmptyString.

(** A machine where no trainctl is installed or built, the wrapper lives in
    /repo/scripts, and every command line ends the way [o] says. *)
Definition world (o : Outcome) : World :=
  mkWorld (fun _ => o) (fun _ => None) (fun _ => false)
          (mkPath "/" ["repo"; "scripts"; "trainctl_wrapper.py"]) [].

(** The same machine after a debug build of trainctl. *)
Definition world_debug_build : World :=
  mkWorld (fun _ => NotFound) (fun _ => None)
          (fun p => str_path p =? "/repo/target/debug/trainctl")
          (mkPath "/" ["repo"; "scripts"; "trainctl_wrapper.py"]) [].

End Sample.

(* ================================================================== *)
(** ** The builders as one family

    The specification speaks of the builders collectively. [Call] names one
    call of one of the eight builders that take optional parameters, with
    its actual parameters; [build_args] is the argument list it makes. *)

Inductive Call : Type :=
| CreateInstance (instance_type : string) (spot : bool)
                 (spot_max_price : option float)
                 (ami_id project_name : option string)
| Train (instance_id script : string) (data_s3 : option string)
        (sync_code : bool) (project_name : option string)
        (args : option (list string))
| Stop (instance_id : string) (force : bool)
| Terminate (instance_id : string) (force : bool)
| Monitor (instance_id : string) (follow : bool)
| Processes (instance_id : string) (watch : bool)
| ResourcesList (platform : option string) (detailed : bool)
                (limit : option Z)
| StopAll (force : bool).

Section Family.
Context {rt : Runtime}.

Definition build_args (c : Call) : list string :=
  match c with
  | CreateInstance instance_type spot spot_max_price ami_id project_name =>
      AWSCommands.create_instance_args instance_type spot spot_max_price
                                       ami_id project_name
  | Train instance_id script data_s3 sync_code project_name args =>
      AWSCommands.train_args instance_id script data_s3 sync_code
                             project_name args
  | Stop instance_id force => AWSCommands.stop_args instance_id force
  | Terminate instance_id force =>
      AWSCommands.terminate_args instance_id force
  | Monitor instance_id follow => AWSCommands.monitor_args instance_id follow
  | Processes instance_id watch =>
      AWSCommands.processes_args instance_id watch
  | ResourcesList platform detailed limit =>
      ResourceCommands.list_args platform detailed limit
  | StopAll force => ResourceCommands.stop_all_args force
  end.

(** The flag token of a switch left at [False]. *)
Definition flag_unless (switch : bool) (token : string) : list string :=
  if switch then [] else [token].

(** The flag token of an optional parameter left at [None]. *)
Definition flag_if_none {A} (opt : option A) (token : string)
  : list string :=
  match opt with
  | None => [token]
  | Some _ => []
  end.

(** The flag tokens of the optional parameters a call leaves at their
    defaults. The token of the pass-through arguments of [train] is the
    separator. *)
Definition unset_flags (c : Call) : list string :=
  match c with
  | CreateInstance _ spot spot_max_price ami_id project_name =>
      flag_unless spot "--spot" ++
      flag_if_none spot_max_price "--spot-max-price" ++
      flag_if_none ami_id "--ami-id" ++
      flag_if_none project_name "--project-name"
  | Train _ _ data_s3 sync_code project_name args =>
      flag_if_none data_s3 "--data-s3" ++
      flag_unless sync_code "--sync-code" ++
      flag_if_none project_name "--project-name" ++
      flag_if_none args "--"
  | Stop _ force => flag_unless force "--force"
  | Terminate _ force => flag_unless force "--force"
  | Monitor _ follow => flag_unless follow "--follow"
  | Processes _ watch => flag_unless watch "--watch"
  | ResourcesList platform detailed limit =>
      flag_if_none platform "--platform" ++
      flag_unless detailed "--detailed" ++
      flag_if_none limit "--limit"
  | StopAll force => flag_unless force "--force"
  end%list.

(** The tokens of an argument list that are the caller's own text: the
    positional parameters, the values that follow a flag, and the
    pass-through arguments. *)
Definition caller_values (c : Call) : list string :=
  match c with
  | CreateInstance instance_type _ spot_max_price ami_id project_name =>
      [instance_type] ++
      extend_if truthy_float spot_max_price (fun p => [str_float p]) [] ++
      extend_if truthy_str ami_id (fun a => [a]) [] ++
      extend_if truthy_str project_name (fun n => [n]) []
  | Train instance_id script data_s3 _ project_name args =>
      [instance_id; script] ++
      extend_if truthy_str data_s3 (fun d => [d]) [] ++
      extend_if truthy_str project_name (fun n => [n]) [] ++
      extend_if truthy_list args (fun a => a) []
  | Stop instance_id _ => [instance_id]
  | Terminate instance_id _ => [instance_id]
  | Monitor instance_id _ => [instance_id]
  | Processes instance_id _ => [instance_id]
  | ResourcesList platform _ limit =>
      extend_if truthy_str platform (fun p => [p]) [] ++
      extend_if truthy_int limit (fun n => [str_int n]) []
  | StopAll _ => []
  end%list.

(** An optional argument as a condition sees it: a value that is false
    there counts for [None]. *)
Definition keep_truthy {A} (truthy : A -> bool) (opt : option A) : option A :=
  match opt with
  | Some a => if truthy a then Some a else None
  | None => None
  end.

(** A call with each optional parameter that was given a false value (an
    empty string, a zero, an empty list) left out instead. *)
Definition without_falsy (c : Call) : Call :=
  match c with
  | CreateInstance instance_type spot spot_max_price ami_id project_name =>
      CreateInstance instance_type spot
                     (keep_truthy truthy_float spot_max_price)
                     (keep_truthy truthy_str ami_id)
                     (keep_truthy truthy_str project_name)
  | Train instance_id script data_s3 sync_code project_name args =>
      Train instance_id script (keep_truthy truthy_str data_s3) sync_code
            (keep_truthy truthy_str project_name)
            (keep_truthy truthy_list args)
  | ResourcesList platform detailed limit =>
      ResourcesList (keep_truthy truthy_str platform) detailed
                    (keep_truthy truthy_int limit)
  | Stop _ _ | Terminate _ _ | Monitor _ _ | Processes _ _ | StopAll _ => c
  end.

End Family.

(* ================================================================== *)
(** ** The binary locator as the specification words it *)

(** The reference of the first candidate that applies, or the fallback. *)
Fixpoint first_applicable (candidates : list (bool * string))
                          (fallback : string) : string :=
  match candidates with
  | [] => fallback
  | (applies, reference) :: rest =>
      if applies then reference else first_applicable rest fallback
  end.

(** Whether [shutil.which] finds the name. *)
Definition on_search_path (w : World) (name : string) : bool :=
  match which w name with
  | Some _ => true
  | None => false
  end.

(** [resolve(explicit_path?)]: the explicit path verbatim; otherwise the
    executable name if it is on the search path, the release artifact if it
    exists, the debug artifact if it exists, and the bare name at last. *)
Definition resolve (w : World) (explicit_path : option string) : string :=
  match explicit_path with
  | Some p => p
  | None =>
      first_applicable
        [(on_search_path w "trainctl", "trainctl");
         (path_exists w (Trainctl.target_bin w "release"),
          str_path (Trainctl.target_bin w "release"));
         (path_exists w (Trainctl.target_bin w "debug"),
          str_path (Trainctl.target_bin w "debug"))]
        "trainctl"
  end.

(** A [str] of whitespace only (the empty one included). *)
Fixpoint whitespace_only (s : string) : bool :=
  match s with
  | EmptyString => true
  | String c s' => isspace c && whitespace_only s'
  end.

(* ================================================================== *)
(** ** Every public method *)

(** One call of one public method of the facade: the eight builders with
    optional parameters ([Built]), the three without, and [version]. *)
Inductive Method : Type :=
| Built (c : Call)
| Summary
| CheckpointList (directory : string)
| CheckpointInfo (path : string)
| Version.

Section Methods.
Context {rt : Runtime}.

(** The call itself, on the methods as defined above. *)
Definition invoke (m : Method) (self : Trainctl.t) (w : World)
  : World * result value :=
  match m with
  | Built (CreateInstance instance_type spot spot_max_price ami_id
                          project_name) =>
      AWSCommands.create_instance self instance_type spot spot_max_price
                                  ami_id project_name w
  | Built (Train instance_id script data_s3 sync_code project_name args) =>
      AWSCommands.train self instance_id script data_s3 sync_code
                        project_name args w
  | Built (Stop instance_id force) => AWSCommands.stop self instance_id force w
  | Built (Terminate instance_id force) =>
      AWSCommands.terminate self instance_id force w
  | Built (Monitor instance_id follow) =>
      AWSCommands.monitor self instance_id follow w
  | Built (Processes instance_id watch) =>
      AWSCommands.processes self instance_id watch w
  | Built (ResourcesList platform detailed limit) =>
      ResourceCommands.list self platform detailed limit w
  | Built (StopAll force) => ResourceCommands.stop_all self force w
  | Summary => ResourceCommands.summary self w
  | CheckpointList directory => CheckpointCommands.list self directory w
  | CheckpointInfo path => CheckpointCommands.info self path w
  | Version => Trainctl.version self w
  end.

(** The argument list a method hands to [_run]. *)
Definition method_args (m : Method) : list string :=
  match m with
  | Built c => build_args c
  | Summary => ["resources"; "summary"]
  | CheckpointList directory => ["checkpoint"; "list"; directory]
  | CheckpointInfo path => ["checkpoint"; "info"; path]
  | Version => ["--version"]
  end.

(** The subcommand path and the positional parameters of a builder call. *)
Definition required_args (c : Call) : list string :=
  match c with
  | CreateInstance instance_type _ _ _ _ =>
      ["aws"; "create"; "--instance-type"; instance_type]
  | Train instance_id script _ _ _ _ => ["aws"; "train"; instance_id; script]
  | Stop instance_id _ => ["aws"; "stop"; instance_id]
  | Terminate instance_id _ => ["aws"; "terminate"; instance_id]
  | Monitor instance_id _ => ["aws"; "monitor"; instance_id]
  | Processes instance_id _ => ["aws"; "processes"; instance_id]
  | ResourcesList _ _ _ => ["resources"; "list"]
  | StopAll _ => ["resources"; "stop-all"]
  end.

(** The tokens a switch that is on stands for. *)
Definition switch_segment (switch : bool) (token : string)
  : list (list string) :=
  if switch then [[token]] else [].

(** The tokens an optional parameter with a true value stands for. *)
Definition option_segment {A} (truthy : A -> bool) (opt : option A)
                          (extra : A -> list string) : list (list string) :=
  match opt with
  | Some a => if truthy a then [extra a] else []
  | None => []
  end.

(** The optional parameters a call sets, each as the run of tokens it
    stands for: a flag, a flag and its value, or the separator and the
    pass-through arguments. *)
Definition set_segments (c : Call) : list (list string) :=
  match c with
  | CreateInstance _ spot spot_max_price ami_id project_name =>
      switch_segment spot "--spot" ++
      option_segment truthy_float spot_max_price
        (fun p => ["--spot-max-price"; str_float p]) ++
      option_segment truthy_str ami_id (fun a => ["--ami-id"; a]) ++
      option_segment truthy_str project_name
        (fun n => ["--project-name"; n])
  | Train _ _ data_s3 sync_code project_name args =>
      option_segment truthy_str data_s3 (fun d => ["--data-s3"; d]) ++
      switch_segment sync_code "--sync-code" ++
      option_segment truthy_str project_name
        (fun n => ["--project-name"; n]) ++
      option_segment truthy_list args (fun a => "--" :: a)
  | Stop _ force => switch_segment force "--force"
  | Terminate _ force => switch_segment force "--force"
  | Monitor _ follow => switch_segment follow "--follow"
  | Processes _ watch => switch_segment watch "--watch"
  | ResourcesList platform detailed limit =>
      option_segment truthy_str platform (fun p => ["--platform"; p]) ++
      switch_segment detailed "--detailed" ++
      option_segment truthy_int limit (fun n => ["--limit"; str_int n])
  | StopAll force => switch_segment force "--force"
  end%list.

(** The module-level [create_instance(instance_type, **kwargs)], for the
    keywords [AWSCommands.create_instance] accepts: a facade with the default
    binary lookup and output format, and one call on it. *)
Definition create_instance (w : World)
    (instance_type : string) (spot : bool) (spot_max_price : option float)
    (ami_id project_name : option string) : World * result value :=
  let tc := Trainctl.__init__ w None "json" in
  AWSCommands.create_instance tc instance_type spot spot_max_price ami_id
                              project_name w.

End Methods.

(** A list that begins with [req]. *)
Definition begins (req args : list string) : Prop :=
  exists rest, args = (req ++ rest)%list.

(** A list that begins with [req] and has the run [seg] further on. *)
Definition holds (req seg args : list string) : Prop :=
  exists mid post, args = (req ++ mid ++ seg ++ post)%list.

(* ================================================================== *)
(** ** The scripts *)

(** One piece of a printed line: literal text, [str] of a value (a
    replacement field of an f-string), or [json.dumps] of a value with
    [indent=2]. The rendering of values is left to the runtime. *)
Inductive piece : Type :=
| Lit (text : string)
| Str (v : value)
| Dumps (v : value).

(** What [print] has written, one entry for each call, oldest first. *)
Definition console : Type := list (list piece).

(** How a script ends: [sys.exit] with a status (status 0 when the end of
    the script is reached), or an exception nobody catches. *)
Inductive ending : Type :=
| Exit (status : Z)
| Uncaught (e : exn).

Definition print (out : console) (line : list piece) : console :=
  (out ++ [line])%list.

Section Scripts.
Context {rt : Runtime}.

(** The [if __name__ == "__main__":] block of the wrapper, started with
    [sys.argv = argv]. *)
Definition wrapper_main (argv : list string) (w : World) (out : console)
  : World * console * ending :=
  if (List.length argv <? 2)%nat then
    let out := print out
                 [Lit "Usage: python trainctl_wrapper.py <command> [args...]"]
    in
    let out := print out [Lit (nl ++ "Example:")] in
    let out := print out
                 [Lit ("  python trainctl_wrapper.py aws create " ++
                       "--instance-type g4dn.xlarge")] in
    (w, out, Exit 1)
  else
    let tc := Trainctl.__init__ w None "json" in
    match Trainctl._run tc (tl argv) false w with
    | (w', Raise e) => (w', out, Uncaught e)
    | (w', Return result) => (w', print out [Dumps result], Exit 0)
    end.

End Scripts.

Module PythonUsage.
Section WithRuntime.
Context {rt : Runtime}.

(** The lines [main] prints after the two queries. *)
Definition closing_lines : list (list piece) :=
  [[Lit "3. Example: Creating instance (commented out)..."];
   [Lit "   # instance = tc.aws.create_instance("];
   [Lit "   #     instance_type='g4dn.xlarge',"];
   [Lit "   #     spot=True,"];
   [Lit "   #     project_name='example'"];
   [Lit "   # )"];
   [Lit ("   # print(f'Created instance: {instance[" ++ Sample.dq ++
         "instance_id" ++ Sample.dq ++ "]}')" ++ nl)];
   [Lit "4. Example: Training workflow (commented out)..."];
   [Lit "   # instance_id = 'i-1234567890abcdef0'"];
   [Lit "   # tc.aws.train("];
   [Lit "   #     instance_id,"];
   [Lit "   #     'training/train.py',"];
   [Lit "   #     sync_code=True,"];
   [Lit "   #     args=['--epochs', '10']"];
   [Lit "   # )"];
   [Lit ("   # tc.aws.monitor(instance_id, follow=True)" ++ nl)];
   [Lit "=== Examples complete ==="];
   [Lit (nl ++ "To use in your code:")];
   [Lit "  from trainctl_wrapper import Trainctl"];
   [Lit "  tc = Trainctl()"];
   [Lit "  instance = tc.aws.create_instance('g4dn.xlarge')"]].

(** [main()] of examples/python_usage.py. Each query is under a handler for
    [TrainctlError]; the first handler returns, the second goes on. *)
Definition main (w : World) (out : console) : World * console * result unit :=
  let tc := Trainctl.__init__ w None "json" in
  let out := print out [Lit ("=== trainctl Python Wrapper Example ===" ++ nl)]
  in
  let out := print out [Lit "1. Checking trainctl version..."] in
  match Trainctl.version tc w with
  | (w, Raise (TrainctlError e)) =>
      (w, print out [Lit "   Error: "; Lit e; Lit nl], Return tt)
  | (w, Raise e) => (w, out, Raise e)
  | (w, Return version) =>
      let out := print out [Lit "   Version info: "; Str version; Lit nl] in
      let out := print out [Lit "2. Listing AWS resources..."] in
      match ResourceCommands.list tc (Some "aws") false (Some 5%Z) w with
      | (w, Raise (TrainctlError e)) =>
          (w,
           (print out [Lit "   Error: "; Lit e; Lit nl] ++ closing_lines)%list,
           Return tt)
      | (w, Raise e) => (w, out, Raise e)
      | (w, Return resources) =>
          (w,
           (print out [Lit "   Resources: "; Str resources; Lit nl]
            ++ closing_lines)%list,
           Return tt)
      end
  end.

End WithRuntime.
End PythonUsage.

(* ================================================================== *)
(** * Properties *)

(** ** Strings *)

Lemma append_assoc (a b c : string) : (a ++ b) ++ c = a ++ b ++ c.
Proof.
  induction a as [|x a IH]; simpl; [reflexivity | now rewrite IH].
Qed.

Lemma append_empty_r (a : string) : a ++ "" = a.
Proof.
  induction a as [|x a IH]; simpl; [reflexivity | now rewrite IH].
Qed.

Lemma contains_middle (pre s post : string) : contains s (pre ++ s ++ post).
Proof. now exists pre, post. Qed.

Lemma contains_end (pre s : string) : contains s (pre ++ s).
Proof. exists pre, ""; now rewrite append_empty_r. Qed.

Lemma lstrip_whitespace_only (s : string) :
  whitespace_only s = true -> lstrip s = "".
Proof.
  induction s as [|c s IH]; simpl; [reflexivity|].
  intros H; apply andb_prop in H as [Hc Hs]; rewrite Hc; auto.
Qed.

Lemma rstrip_empty (s : string) :
  rstrip s = "" -> whitespace_only s = true.
Proof.
  induction s as [|c s IH]; simpl; [reflexivity|].
  destruct (rstrip s) eqn:E; [|discriminate].
  destruct (isspace c); [intros _; now rewrite IH | discriminate].
Qed.

Lemma lstrip_suffix (s : string) :
  whitespace_only (lstrip s) = true -> whitespace_only s = true.
Proof.
  induction s as [|c s IH]; simpl; [reflexivity|].
  destruct (isspace c) eqn:E; simpl; [exact IH | now rewrite E].
Qed.

(** [s.strip()] is empty exactly when [s] is empty or all whitespace. *)
Lemma strip_empty_iff (s : string) :
  strip s = "" <-> whitespace_only s = true.
Proof.
  unfold strip; split; intros H.
  - now apply lstrip_suffix, rstrip_empty.
  - now rewrite lstrip_whitespace_only.
Qed.

Lemma truthy_strip_whitespace_only (s : string) :
  truthy_str (strip s) = negb (whitespace_only s).
Proof.
  destruct (whitespace_only s) eqn:E.
  - apply strip_empty_iff in E; now rewrite E.
  - destruct (strip s) eqn:S; [|reflexivity].
    apply strip_empty_iff in S; congruence.
Qed.

(** ** The decoder of the examples never runs out of fuel *)

Module JsonFacts.
Import Json.

Lemma skip_ws_length (s : string) :
  String.length (skip_ws s) <= String.length s.
Proof.
  induction s as [|c s IH]; simpl; [lia|].
  destruct (is_ws c); simpl; lia.
Qed.

Lemma bind_ok {A B} (p : parse A) (k : A -> string -> parse B) b rest :
  bind p k = Ok b rest -> exists a r, p = Ok a r /\ k a r = Ok b rest.
Proof. destruct p; simpl; try discriminate. eauto. Qed.

Lemma bind_exhausted {A B} (p : parse A) (k : A -> string -> parse B) :
  bind p k = Exhausted ->
  p = Exhausted \/ exists a r, p = Ok a r /\ k a r = Exhausted.
Proof. destruct p; simpl; try discriminate; eauto. Qed.

Lemma cons_char_ok c p s rest :
  cons_char c p = Ok s rest -> exists s', p = Ok s' rest.
Proof.
  unfold cons_char. intros H. apply bind_ok in H as (a & r & Hp & Hk).
  inversion Hk; subst. eauto.
Qed.

Lemma cons_char_exhausted c p :
  cons_char c p = Exhausted -> p = Exhausted.
Proof.
  unfold cons_char. intros H.
  apply bind_exhausted in H as [H|(a & r & _ & H)]; [exact H | discriminate].
Qed.

Lemma scanstring_facts (n : nat) :
  forall s, String.length s <= n ->
    scanstring s <> Exhausted /\
    (forall a rest, scanstring s = Ok a rest ->
                    String.length rest < String.length s).
Proof.
  induction n as [|n IH]; intros s Hn.
  - destruct s; simpl in *; [split; [discriminate | discriminate] | lia].
  - destruct s as [|c s1]; simpl; [split; discriminate|].
    simpl in Hn.
    destruct (nat_of_ascii c =? 34)%nat.
    { split; [discriminate|]. intros a rest H; inversion H; subst; lia. }
    destruct (nat_of_ascii c =? 92)%nat.
    { destruct s1 as [|e s2]; [split; discriminate|].
      simpl in Hn.
      destruct (nat_of_ascii e =? 117)%nat.
      - destruct s2 as [|h1 [|h2 [|h3 [|h4 s3]]]]; try (split; discriminate).
        simpl in Hn.
        destruct (hexval h1), (hexval h2), (hexval h3), (hexval h4);
          try (split; discriminate).
        match goal with |- context [if ?b then _ else _] => destruct b end;
          [|split; discriminate].
        destruct (IH s3 ltac:(lia)) as [He Hl]. split.
        + intros H; apply cons_char_exhausted in H; auto.
        + intros str rest H; apply cons_char_ok in H as [s' H].
          apply Hl in H. simpl; lia.
      - destruct (unescape e); [|split; discriminate].
        destruct (IH s2 ltac:(lia)) as [He Hl]. split.
        + intros H; apply cons_char_exhausted in H; auto.
        + intros str rest H; apply cons_char_ok in H as [s' H].
          apply Hl in H. simpl; lia. }
    destruct (nat_of_ascii c <? 32)%nat; [split; discriminate|].
    destruct (IH s1 ltac:(lia)) as [He Hl]. split.
    + intros H; apply cons_char_exhausted in H; auto.
    + intros str rest H; apply cons_char_ok in H as [s' H].
      apply Hl in H. simpl; lia.
Qed.

Lemma scanstring_not_exhausted s : scanstring s <> Exhausted.
Proof. exact (proj1 (@scanstring_facts _ s (le_n _))). Qed.

Lemma scanstring_length s a rest :
  scanstring s = Ok a rest -> String.length rest < String.length s.
Proof. exact (proj2 (@scanstring_facts _ s (le_n _)) a rest). Qed.

Lemma digits_length s d rest :
  digits s = (d, rest) -> String.length rest <= String.length s.
Proof.
  revert d rest; induction s as [|c s IH]; simpl; intros d rest H.
  - inversion H; simpl; lia.
  - destruct (is_digit c).
    + destruct (digits s) as [d' rest'] eqn:E. inversion H; subst.
      specialize (IH _ _ eq_refl). lia.
    + inversion H; subst; simpl; lia.
Qed.

Lemma match_natural_length s d rest :
  match_natural s = Some (d, rest) -> String.length rest < String.length s.
Proof.
  destruct s as [|c s]; simpl; [discriminate|].
  destruct (nat_of_ascii c =? 48)%nat.
  - intros H; inversion H; subst; lia.
  - destruct (is_digit c); [|discriminate].
    destruct (digits s) as [d' rest'] eqn:E. intros H; inversion H; subst.
    apply digits_length in E. lia.
Qed.

Lemma match_integer_length s d rest :
  match_integer s = Some (d, rest) -> String.length rest < String.length s.
Proof.
  destruct s as [|c s]; [discriminate|]. unfold match_integer.
  destruct (nat_of_ascii c =? 45)%nat.
  - destruct (match_natural s) as [[d' rest']|] eqn:E; [|discriminate].
    intros H; inversion H; subst.
    apply match_natural_length in E. simpl; lia.
  - apply match_natural_length.
Qed.

Lemma match_frac_length s f rest :
  match_frac s = (f, rest) -> String.length rest <= String.length s.
Proof.
  destruct s as [|c s]; simpl; [intros H; inversion H; simpl; lia|].
  destruct (nat_of_ascii c =? 46)%nat.
  - destruct (digits s) as [[|x d] rest'] eqn:E;
      intros H; inversion H; subst; simpl; [lia|].
    apply digits_length in E. lia.
  - intros H; inversion H; subst; simpl; lia.
Qed.

Lemma match_exp_length s e rest :
  match_exp s = (e, rest) -> String.length rest <= String.length s.
Proof.
  destruct s as [|c s]; simpl; [intros H; inversion H; simpl; lia|].
  destruct (_ || _)%bool; [|intros H; inversion H; subst; simpl; lia].
  destruct s as [|sg s']; [intros H; inversion H; subst; simpl; lia|].
  destruct (_ || _)%bool.
  - destruct (digits s') as [[|x d] rest'] eqn:E;
      intros H; inversion H; subst; simpl; [lia|].
    apply digits_length in E. lia.
  - destruct (digits (String sg s')) as [[|x d] rest'] eqn:E;
      intros H; inversion H; subst; simpl; [lia|].
    apply digits_length in E. simpl in E. lia.
Qed.

Lemma match_number_length s v rest :
  match_number s = Some (v, rest) -> String.length rest < String.length s.
Proof.
  unfold match_number.
  destruct (match_integer s) as [[i r0]|] eqn:Ei; [|discriminate].
  destruct (match_frac r0) as [f r1] eqn:Ef.
  destruct (match_exp r1) as [e r2] eqn:Ee.
  apply match_integer_length in Ei.
  apply match_frac_length in Ef. apply match_exp_length in Ee.
  destruct f, e; intros H; inversion H; subst; lia.
Qed.

Lemma strip_prefix_length p s rest :
  strip_prefix p s = Some rest ->
  String.length s = String.length p + String.length rest.
Proof.
  revert s; induction p as [|a p IH]; intros [|b s]; simpl;
    try discriminate; try (intros H; inversion H; reflexivity).
  destruct (Ascii.eqb a b); [|discriminate].
  intros H; apply IH in H; lia.
Qed.

Lemma match_word_length table s v rest :
  Forall (fun wv => fst wv <> "") table ->
  match_word table s = Some (v, rest) ->
  String.length rest < String.length s.
Proof.
  induction 1 as [|[word v'] table Hw _ IH]; simpl; [discriminate|].
  destruct (strip_prefix word s) as [r|] eqn:E; [|exact IH].
  intros H; inversion H; subst. apply strip_prefix_length in E.
  destruct word; [now elim Hw|]. simpl in E; lia.
Qed.

Lemma expect_length c s u rest :
  expect c s = Ok u rest -> String.length s = S (String.length rest).
Proof.
  destruct s as [|c' s]; simpl; [discriminate|].
  destruct (_ =? _)%nat; [|discriminate].
  intros H; inversion H; reflexivity.
Qed.

Lemma expect_not_exhausted c s : expect c s <> Exhausted.
Proof.
  destruct s as [|c' s]; simpl; [discriminate|].
  destruct (_ =? _)%nat; discriminate.
Qed.


Lemma literals_nonempty : Forall (fun wv => fst wv <> "") literals.
Proof. repeat constructor; discriminate. Qed.

Lemma constants_nonempty : Forall (fun wv => fst wv <> "") constants.
Proof. repeat constructor; discriminate. Qed.

#[local] Arguments match_word : simpl never.
#[local] Arguments match_number : simpl never.
#[local] Arguments scanstring : simpl never.
#[local] Arguments skip_ws : simpl never.
#[local] Arguments expect : simpl never.
#[local] Arguments bind : simpl never.
#[local] Arguments nat_of_ascii : simpl never.

Ltac bind_inv H :=
  let a := fresh "a" in let r := fresh "r" in
  let Hp := fresh "Hp" in
  apply bind_ok in H as (a & r & Hp & H).

(** Every value read takes at least one character off the input. *)
Lemma scan_length (fuel : nat) :
  (forall s v rest, scan_once fuel s = Ok v rest ->
     String.length rest < String.length s) /\
  (forall acc s v rest, members fuel acc s = Ok v rest ->
     String.length rest < String.length s) /\
  (forall acc s v rest, elements fuel acc s = Ok v rest ->
     String.length rest < String.length s).
Proof.
  induction fuel as [|fuel (IHs & IHm & IHe)];
    [repeat split; intros; discriminate|].
  split; [|split].
  - intros [|c s'] v rest; simpl; [discriminate|].
    destruct (nat_of_ascii c =? 34)%nat.
    { intros H. bind_inv H. inversion H; subst.
      apply scanstring_length in Hp. lia. }
    destruct (nat_of_ascii c =? 123)%nat.
    { pose proof (skip_ws_length s') as Hw.
      destruct (skip_ws s') as [|c1 s1]; [discriminate|]. simpl in Hw.
      destruct (nat_of_ascii c1 =? 125)%nat.
      - intros H; inversion H; subst; lia.
      - destruct (nat_of_ascii c1 =? 34)%nat; [|discriminate].
        intros H; apply IHm in H; lia. }
    destruct (nat_of_ascii c =? 91)%nat.
    { pose proof (skip_ws_length s') as Hw.
      destruct (skip_ws s') as [|c1 s1]; [discriminate|]. simpl in Hw.
      destruct (nat_of_ascii c1 =? 93)%nat.
      - intros H; inversion H; subst; lia.
      - intros H; apply IHe in H; simpl in H; lia. }
    destruct (match_word literals (String c s')) as [[v1 r1]|] eqn:E1.
    { intros H; inversion H; subst.
      apply (match_word_length _ literals_nonempty) in E1. exact E1. }
    destruct (match_number (String c s')) as [[v2 r2]|] eqn:E2.
    { intros H; inversion H; subst.
      apply match_number_length in E2. exact E2. }
    destruct (match_word constants (String c s')) as [[v3 r3]|] eqn:E3;
      [|discriminate].
    intros H; inversion H; subst.
    apply (match_word_length _ constants_nonempty) in E3. exact E3.
  - intros acc s v rest H; simpl in H.
    bind_inv H. apply scanstring_length in Hp.
    bind_inv H. apply expect_length in Hp0.
    bind_inv H. apply IHs in Hp1.
    pose proof (skip_ws_length r) as Hw1.
    pose proof (skip_ws_length r0) as Hw2.
    pose proof (skip_ws_length r1) as Hw3.
    destruct (skip_ws r1) as [|c r2]; [discriminate|]. simpl in Hw3.
    destruct (nat_of_ascii c =? 125)%nat.
    { inversion H; subst; lia. }
    destruct (nat_of_ascii c =? 44)%nat; [|discriminate].
    bind_inv H. apply expect_length in Hp2.
    pose proof (skip_ws_length r2) as Hw4.
    apply IHm in H. lia.
  - intros acc s v rest H; simpl in H.
    bind_inv H. apply IHs in Hp.
    pose proof (skip_ws_length r) as Hw1.
    destruct (skip_ws r) as [|c r1]; [discriminate|]. simpl in Hw1.
    destruct (nat_of_ascii c =? 93)%nat.
    { inversion H; subst; lia. }
    destruct (nat_of_ascii c =? 44)%nat; [|discriminate].
    pose proof (skip_ws_length r1) as Hw2.
    apply IHe in H. lia.
Qed.


Ltac bind_exh H :=
  let a := fresh "a" in let r := fresh "r" in
  let Hp := fresh "Hp" in
  apply bind_exhausted in H as [H|(a & r & Hp & H)].

(** Twice the length of the input, and one more, is fuel enough. *)
Lemma scan_fuel (fuel : nat) :
  (forall s, 2 * String.length s + 1 <= fuel ->
     scan_once fuel s <> Exhausted) /\
  (forall acc s, 2 * String.length s + 1 <= fuel ->
     members fuel acc s <> Exhausted) /\
  (forall acc s, 2 * String.length s + 2 <= fuel ->
     elements fuel acc s <> Exhausted).
Proof.
  induction fuel as [|fuel (IHs & IHm & IHe)];
    [repeat split; intros; lia|].
  destruct (scan_length fuel) as (Ls & Lm & Le).
  split; [|split].
  - intros [|c s'] Hf; simpl; [discriminate|]. simpl in Hf.
    destruct (nat_of_ascii c =? 34)%nat.
    { intros H. bind_exh H; [|discriminate].
      now apply scanstring_not_exhausted in H. }
    destruct (nat_of_ascii c =? 123)%nat.
    { pose proof (skip_ws_length s') as Hw.
      destruct (skip_ws s') as [|c1 s1]; [discriminate|]. simpl in Hw.
      destruct (nat_of_ascii c1 =? 125)%nat; [discriminate|].
      destruct (nat_of_ascii c1 =? 34)%nat; [|discriminate].
      apply IHm; lia. }
    destruct (nat_of_ascii c =? 91)%nat.
    { pose proof (skip_ws_length s') as Hw.
      destruct (skip_ws s') as [|c1 s1]; [discriminate|]. simpl in Hw.
      destruct (nat_of_ascii c1 =? 93)%nat; [discriminate|].
      apply IHe; simpl; lia. }
    destruct (match_word literals (String c s')) as [[v1 r1]|];
      [discriminate|].
    destruct (match_number (String c s')) as [[v2 r2]|]; [discriminate|].
    destruct (match_word constants (String c s')) as [[v3 r3]|];
      discriminate.
  - intros acc s Hf H; simpl in H.
    bind_exh H; [now apply scanstring_not_exhausted in H|].
    apply scanstring_length in Hp.
    pose proof (skip_ws_length r) as Hw1.
    bind_exh H; [now apply expect_not_exhausted in H|].
    apply expect_length in Hp0.
    pose proof (skip_ws_length r0) as Hw2.
    bind_exh H; [revert H; apply IHs; lia|].
    apply Ls in Hp1.
    pose proof (skip_ws_length r1) as Hw3.
    destruct (skip_ws r1) as [|c r2]; [discriminate|]. simpl in Hw3.
    destruct (nat_of_ascii c =? 125)%nat; [discriminate|].
    destruct (nat_of_ascii c =? 44)%nat; [|discriminate].
    pose proof (skip_ws_length r2) as Hw4.
    bind_exh H; [now apply expect_not_exhausted in H|].
    apply expect_length in Hp2.
    revert H; apply IHm; lia.
  - intros acc s Hf H; simpl in H.
    bind_exh H; [revert H; apply IHs; lia|].
    apply Ls in Hp.
    pose proof (skip_ws_length r) as Hw1.
    destruct (skip_ws r) as [|c r1]; [discriminate|]. simpl in Hw1.
    destruct (nat_of_ascii c =? 93)%nat; [discriminate|].
    destruct (nat_of_ascii c =? 44)%nat; [|discriminate].
    pose proof (skip_ws_length r1) as Hw2.
    revert H; apply IHe; lia.
Qed.

(** [loads] never stops for want of fuel. *)
Lemma loads_fuel (s : string) :
  scan_once (S (2 * String.length s)) (skip_ws s) <> Exhausted.
Proof.
  apply (proj1 (scan_fuel _)).
  pose proof (skip_ws_length s). lia.
Qed.

Lemma loads_no_recursion_error (s : string) :
  loads s <> Raise (OtherError "RecursionError").
Proof.
  unfold loads. pose proof (loads_fuel s) as H.
  destruct (scan_once _ _) as [v rest| | |];
    [destruct (skip_ws rest)| | |]; try discriminate.
  now elim H.
Qed.

End JsonFacts.

(** ** The invoker, outcome by outcome *)

Section Invoker.
Context {rt : Runtime}.
Variables (self : Trainctl.t) (args : list string) (w : World).

Let cmd := Trainctl.command self args.

(** Every call hands exactly one command line to [subprocess.run]. *)
Lemma run_spawns (check : bool) :
  fst (Trainctl._run self args check w) = log_spawn w cmd.
Proof.
  unfold Trainctl._run, Trainctl._run_try, subprocess_run; fold cmd.
  destruct (run_process w cmd) as [|name|rc out err]; try reflexivity.
  destruct (check && negb (rc =? 0)%Z); [reflexivity|].
  match goal with |- fst (match ?r with _ => _ end) = _ =>
    destruct r as [a|[]]; reflexivity end.
Qed.

Lemma run_not_found (check : bool) :
  run_process w cmd = NotFound ->
  Trainctl._run self args check w =
  (log_spawn w cmd,
   Raise (TrainctlError
            ("trainctl binary not found: " ++ Trainctl.binary self ++ nl ++
             "Install with: cargo install --path ."))).
Proof.
  intros H.
  unfold Trainctl._run, Trainctl._run_try, subprocess_run; fold cmd.
  now rewrite H.
Qed.

Lemma run_nonzero_checked (rc : Z) (out err : string) :
  run_process w cmd = Exited rc out err -> rc <> 0%Z ->
  Trainctl._run self args true w =
  (log_spawn w cmd,
   Raise (TrainctlError
            ("trainctl command failed: " ++ err ++ nl ++
             "Command: " ++ join " " cmd))).
Proof.
  intros H Hrc. apply Z.eqb_neq in Hrc.
  unfold Trainctl._run, Trainctl._run_try, subprocess_run; fold cmd.
  now rewrite H, Hrc.
Qed.

Lemma run_nonzero_unchecked (rc : Z) (out err : string) :
  run_process w cmd = Exited rc out err -> rc <> 0%Z ->
  Trainctl._run self args false w =
  (log_spawn w cmd,
   Return (VDict [("error", VStr err); ("exit_code", VInt rc)])).
Proof.
  intros H Hrc. apply Z.eqb_neq in Hrc.
  unfold Trainctl._run, Trainctl._run_try, subprocess_run; fold cmd.
  rewrite H; simpl. now rewrite Hrc.
Qed.

(** After a zero exit the answer is decided by the captured output alone,
    whatever [check] is. *)
Lemma run_zero (check : bool) (out err : string) :
  run_process w cmd = Exited 0 out err ->
  Trainctl._run self args check w =
  (log_spawn w cmd,
   if whitespace_only out then Return (VDict [])
   else if Trainctl.output_format self =? "json" then
     match json_loads out with
     | Raise JSONDecodeError => Return (VDict [("output", VStr out)])
     | Raise FileNotFoundError =>
         Raise (TrainctlError
                  ("trainctl binary not found: " ++ Trainctl.binary self ++
                   nl ++ "Install with: cargo install --path ."))
     | Raise (CalledProcessError _ _ _ e_stderr) =>
         Raise (TrainctlError
                  ("trainctl command failed: " ++ e_stderr ++ nl ++
                   "Command: " ++ join " " cmd))
     | r => r
     end
   else Return (VDict [("output", VStr out)])).
Proof.
  intros H.
  unfold Trainctl._run, Trainctl._run_try, subprocess_run; fold cmd.
  rewrite H, andb_false_r; simpl.
  rewrite truthy_strip_whitespace_only, negb_involutive.
  destruct (whitespace_only out); [reflexivity|].
  destruct (Trainctl.output_format self =? "json"); [|reflexivity].
  destruct (json_loads out) as [v|[]]; reflexivity.
Qed.

End Invoker.

(** ** Response decoding *)

(** C1, as amended. With the JSON format, after exit code 0 and a stdout that
    is not empty or whitespace-only and that [json.loads] rejects, [_run]
    does not raise: it returns the one-field mapping [{"output": stdout}]. *)
Theorem run_json_fallback {rt : Runtime}
    (self : Trainctl.t) (args : list string) (check : bool) (w : World)
    (out err : string) :
  Trainctl.output_format self = "json" ->
  run_process w (Trainctl.command self args) = Exited 0 out err ->
  whitespace_only out = false ->
  json_loads out = Raise JSONDecodeError ->
  Trainctl._run self args check w =
  (log_spawn w (Trainctl.command self args),
   Return (VDict [("output", VStr out)])).
Proof.
  intros Hfmt Hrun Hout Hjson.
  rewrite (run_zero self args w check Hrun), Hout, Hfmt, Hjson.
  reflexivity.
Qed.

(** The fallback on the output "hello", with the decoder of the examples. *)
Lemma run_json_fallback_witness :
  let self := Trainctl.mk "trainctl" "json" in
  let w := Sample.world (Exited 0 "hello" "") in
  Trainctl.output_format self = "json" /\
  run_process w (Trainctl.command self ["--version"]) = Exited 0 "hello" "" /\
  whitespace_only "hello" = false /\
  Json.loads "hello" = Raise JSONDecodeError /\
  Trainctl._run (rt := Sample.runtime) self ["--version"] true w =
  (log_spawn w ["trainctl"; "--version"; "--output"; "json"],
   Return (VDict [("output", VStr "hello")])).
Proof.
  cbv zeta.
  repeat (split; [reflexivity|]).
  apply (run_json_fallback (rt := Sample.runtime)) with (err := "");
    reflexivity.
Defined.

(** C1 as stated fails on a stdout that is not empty but blank: a tool that
    prints one newline and exits with 0 gets the empty mapping, not
    [{"output": "\n"}], although [json.loads] rejects that output. *)
Lemma run_json_fallback_blank_counterexample :
  let self := Trainctl.mk "trainctl" "json" in
  let w := Sample.world (Exited 0 nl "") in
  Trainctl.output_format self = "json" /\
  run_process w (Trainctl.command self ["--version"]) = Exited 0 nl "" /\
  nl <> "" /\
  Json.loads nl = Raise JSONDecodeError /\
  snd (Trainctl._run (rt := Sample.runtime) self ["--version"] true w) =
    Return (VDict []) /\
  snd (Trainctl._run (rt := Sample.runtime) self ["--version"] true w) <>
    Return (VDict [("output", VStr nl)]).
Proof.
  cbv zeta.
  repeat (split; [first [reflexivity | discriminate]|]).
  discriminate.
Qed.

(** C4. After exit code 0 and an empty or whitespace-only stdout, [_run]
    returns the empty mapping, whichever output format the instance has and
    whether or not the exit code is checked. *)
Theorem run_blank_output {rt : Runtime}
    (self : Trainctl.t) (args : list string) (check : bool) (w : World)
    (out err : string) :
  run_process w (Trainctl.command self args) = Exited 0 out err ->
  whitespace_only out = true ->
  Trainctl._run self args check w =
  (log_spawn w (Trainctl.command self args), Return (VDict [])).
Proof.
  intros Hrun Hout.
  now rewrite (run_zero self args w check Hrun), Hout.
Qed.

Lemma run_blank_output_witness :
  let out := String " " nl in
  let w := Sample.world (Exited 0 out "") in
  whitespace_only out = true /\
  Trainctl._run (rt := Sample.runtime) (Trainctl.mk "trainctl" "json")
                ["aws"; "stop"; "i-1"] true w =
  (log_spawn w ["trainctl"; "aws"; "stop"; "i-1"; "--output"; "json"],
   Return (VDict [])) /\
  Trainctl._run (rt := Sample.runtime) (Trainctl.mk "trainctl" "text")
                ["aws"; "stop"; "i-1"] false w =
  (log_spawn w ["trainctl"; "aws"; "stop"; "i-1"], Return (VDict [])).
Proof.
  cbv zeta.
  split; [reflexivity|].
  split;
    apply (run_blank_output (rt := Sample.runtime))
      with (out := String " " nl) (err := "");
    reflexivity.
Defined.

(** C9, as amended. An instance whose output format is any string other than
    "json" never has the pair [--output json] appended: the command line is
    the binary and the arguments. No call of it consults [json.loads]. After
    exit code 0 and a stdout that is not empty or whitespace-only, the result
    is [{"output": stdout}]. *)
Theorem run_raw_text {rt : Runtime}
    (self : Trainctl.t) (args : list string) (check : bool) (w : World) :
  Trainctl.output_format self <> "json" ->
  Trainctl.command self args = Trainctl.binary self :: args /\
  spawned (fst (Trainctl._run self args check w)) =
    (spawned w ++ [Trainctl.binary self :: args])%list /\
  (forall rt' : Runtime,
     Trainctl._run (rt := rt') self args check w =
     Trainctl._run self args check w) /\
  (forall out err,
     run_process w (Trainctl.binary self :: args) = Exited 0 out err ->
     whitespace_only out = false ->
     snd (Trainctl._run self args check w) =
     Return (VDict [("output", VStr out)])).
Proof.
  intros Hfmt. apply String.eqb_neq in Hfmt.
  assert (Hcmd : Trainctl.command self args = Trainctl.binary self :: args)
    by (unfold Trainctl.command; now rewrite Hfmt).
  split; [exact Hcmd|].
  split; [now rewrite run_spawns, Hcmd|].
  split.
  - intros rt'.
    unfold Trainctl._run, Trainctl._run_try.
    destruct (subprocess_run w (Trainctl.command self args) check)
      as [w' [r|e]]; [|reflexivity].
    now rewrite Hfmt.
  - intros out err Hrun Hout. rewrite <- Hcmd in Hrun.
    now rewrite (run_zero self args w check Hrun), Hout, Hfmt.
Qed.

Lemma run_raw_text_witness :
  let self := Trainctl.mk "trainctl" "text" in
  let w := Sample.world (Exited 0 "hello" "") in
  Trainctl.output_format self <> "json" /\
  run_process w ["trainctl"; "--version"] = Exited 0 "hello" "" /\
  whitespace_only "hello" = false /\
  Trainctl.command self ["--version"] = ["trainctl"; "--version"] /\
  snd (Trainctl._run (rt := Sample.runtime) self ["--version"] false w) =
  Return (VDict [("output", VStr "hello")]).
Proof.
  cbv zeta.
  assert (H : Trainctl.output_format (Trainctl.mk "trainctl" "text")
              <> "json") by discriminate.
  split; [exact H|].
  split; [reflexivity|].
  split; [reflexivity|].
  destruct (run_raw_text (rt := Sample.runtime)
              (Trainctl.mk "trainctl" "text") ["--version"] false
              (Sample.world (Exited 0 "hello" "")) H)
    as (Hcmd & _ & _ & Hout).
  split; [exact Hcmd|].
  apply (Hout "hello" ""); reflexivity.
Defined.

(** C9 as stated fails on a blank stdout: with the text format, one newline
    on stdout and exit code 0 give the empty mapping. *)
Lemma run_raw_text_blank_counterexample :
  let self := Trainctl.mk "trainctl" "text" in
  let w := Sample.world (Exited 0 nl "") in
  Trainctl.output_format self <> "json" /\
  run_process w (Trainctl.command self ["--version"]) = Exited 0 nl "" /\
  nl <> "" /\
  snd (Trainctl._run (rt := Sample.runtime) self ["--version"] true w) =
    Return (VDict []) /\
  snd (Trainctl._run (rt := Sample.runtime) self ["--version"] true w) <>
    Return (VDict [("output", VStr nl)]).
Proof.
  cbv zeta.
  repeat (split; [first [reflexivity | discriminate]|]).
  discriminate.
Qed.

(** ** Error classification *)

(** C2. With [check] on, a child that exits with a non-zero code makes [_run]
    raise an error whose message contains the captured stderr and the command
    line that was run, its tokens joined by spaces. *)
Theorem run_nonzero_raises {rt : Runtime}
    (self : Trainctl.t) (args : list string) (w : World)
    (rc : Z) (out err : string) :
  run_process w (Trainctl.command self args) = Exited rc out err ->
  rc <> 0%Z ->
  exists msg,
    Trainctl._run self args true w =
      (log_spawn w (Trainctl.command self args), Raise (TrainctlError msg)) /\
    contains err msg /\
    contains (join " " (Trainctl.command self args)) msg.
Proof.
  intros Hrun Hrc.
  eexists; split; [exact (run_nonzero_checked self args w Hrun Hrc)|].
  split.
  - apply contains_middle.
  - rewrite <- !append_assoc. apply contains_end.
Qed.

Lemma run_nonzero_raises_witness :
  let self := Trainctl.mk "trainctl" "json" in
  let w := Sample.world (Exited 1 "" "quota exceeded") in
  let args := ["resources"; "list"] in
  run_process w (Trainctl.command self args) = Exited 1 "" "quota exceeded" /\
  1%Z <> 0%Z /\
  exists msg,
    Trainctl._run (rt := Sample.runtime) self args true w =
      (log_spawn w (Trainctl.command self args), Raise (TrainctlError msg)) /\
    contains "quota exceeded" msg /\
    contains (join " " (Trainctl.command self args)) msg.
Proof.
  cbv zeta.
  split; [reflexivity|].
  split; [discriminate|].
  apply (run_nonzero_raises (rt := Sample.runtime))
    with (rc := 1%Z) (out := ""); [reflexivity | discriminate].
Defined.

(** C3. With [check] off, a child that exits with a non-zero code makes [_run]
    return the mapping [{"error": stderr, "exit_code": code}]; nothing is
    raised. *)
Theorem run_unchecked_returns_error {rt : Runtime}
    (self : Trainctl.t) (args : list string) (w : World)
    (rc : Z) (out err : string) :
  run_process w (Trainctl.command self args) = Exited rc out err ->
  rc <> 0%Z ->
  Trainctl._run self args false w =
  (log_spawn w (Trainctl.command self args),
   Return (VDict [("error", VStr err); ("exit_code", VInt rc)])).
Proof.
  intros Hrun Hrc. exact (run_nonzero_unchecked self args w Hrun Hrc).
Qed.

Lemma run_unchecked_returns_error_witness :
  let self := Trainctl.mk "trainctl" "json" in
  let w := Sample.world (Exited 2 "partial" "quota exceeded") in
  run_process w (Trainctl.command self ["resources"; "summary"]) =
    Exited 2 "partial" "quota exceeded" /\
  2%Z <> 0%Z /\
  Trainctl._run (rt := Sample.runtime) self ["resources"; "summary"] false w =
  (log_spawn w ["trainctl"; "resources"; "summary"; "--output"; "json"],
   Return (VDict [("error", VStr "quota exceeded"); ("exit_code", VInt 2)])).
Proof.
  cbv zeta.
  split; [reflexivity|].
  split; [discriminate|].
  apply (run_unchecked_returns_error (rt := Sample.runtime))
    with (out := "partial"); [reflexivity | discriminate].
Defined.

(** C10. [check] off does not silence a missing binary: when the program
    cannot be found, [_run] called with [check] off raises an error whose
    message carries the binary path that was tried and the installation
    hint, and so does [version]. *)
Theorem run_not_found_raises {rt : Runtime} (self : Trainctl.t) (w : World) :
  (forall args,
     run_process w (Trainctl.command self args) = NotFound ->
     exists msg,
       Trainctl._run self args false w =
         (log_spawn w (Trainctl.command self args),
          Raise (TrainctlError msg)) /\
       contains (Trainctl.binary self) msg /\
       contains "Install with: cargo install --path ." msg) /\
  (run_process w (Trainctl.command self ["--version"]) = NotFound ->
   exists msg,
     Trainctl.version self w =
       (log_spawn w (Trainctl.command self ["--version"]),
        Raise (TrainctlError msg)) /\
     contains (Trainctl.binary self) msg /\
     contains "Install with: cargo install --path ." msg).
Proof.
  assert (H : forall args,
             run_process w (Trainctl.command self args) = NotFound ->
             exists msg,
               Trainctl._run self args false w =
                 (log_spawn w (Trainctl.command self args),
                  Raise (TrainctlError msg)) /\
               contains (Trainctl.binary self) msg /\
               contains "Install with: cargo install --path ." msg).
  { intros args Hrun.
    eexists; split; [exact (run_not_found self args w false Hrun)|].
    split.
    - apply contains_middle.
    - rewrite <- !append_assoc. apply contains_end. }
  split; [exact H | exact (H ["--version"])].
Qed.

Lemma run_not_found_raises_witness :
  let self := Trainctl.mk "/opt/bin/trainctl" "json" in
  let w := Sample.world NotFound in
  run_process w (Trainctl.command self ["--version"]) = NotFound /\
  Trainctl.version (rt := Sample.runtime) self w =
    (log_spawn w ["/opt/bin/trainctl"; "--version"; "--output"; "json"],
     Raise (TrainctlError
              ("trainctl binary not found: /opt/bin/trainctl" ++ nl ++
               "Install with: cargo install --path ."))) /\
  exists msg,
    Trainctl.version (rt := Sample.runtime) self w =
      (log_spawn w (Trainctl.command self ["--version"]),
       Raise (TrainctlError msg)) /\
    contains "/opt/bin/trainctl" msg /\
    contains "Install with: cargo install --path ." msg.
Proof.
  cbv zeta.
  split; [reflexivity|].
  split; [reflexivity|].
  apply (proj2 (run_not_found_raises (rt := Sample.runtime)
                  (Trainctl.mk "/opt/bin/trainctl" "json")
                  (Sample.world NotFound))).
  reflexivity.
Defined.

(** The scenario of the specification, message in full. *)
Example quota_exceeded_message :
  snd (ResourceCommands.list (rt := Sample.runtime)
         (Trainctl.mk "trainctl" "json") (Some "aws") false (Some 5%Z)
         (Sample.world (Exited 1 "" "quota exceeded"))) =
  Raise (TrainctlError
           ("trainctl command failed: quota exceeded" ++ nl ++
            "Command: trainctl resources list --platform aws --limit 5 " ++
            "--output json")).
Proof. reflexivity. Qed.

(** ** Command construction *)

(** C5. [resources.list(platform="aws", limit=5)] builds the argument list
    [resources list --platform aws --limit 5], in that order, and under the
    JSON format the command line that is run is the binary, that list, and
    the pair [--output json] at the end. *)
Theorem resources_list_aws_5 {rt : Runtime} (self : Trainctl.t) (w : World) :
  Trainctl.output_format self = "json" ->
  ResourceCommands.list_args (Some "aws") false (Some 5%Z) =
    ["resources"; "list"; "--platform"; "aws"; "--limit"; "5"] /\
  spawned (fst (ResourceCommands.list self (Some "aws") false (Some 5%Z) w)) =
    (spawned w ++
     [Trainctl.binary self ::
      ["resources"; "list"; "--platform"; "aws"; "--limit"; "5"] ++
      ["--output"; "json"]])%list.
Proof.
  intros Hfmt. split; [reflexivity|].
  unfold ResourceCommands.list. rewrite run_spawns.
  unfold Trainctl.command. now rewrite Hfmt.
Qed.

Lemma resources_list_aws_5_witness :
  let self := Trainctl.mk "trainctl" "json" in
  let w := Sample.world (Exited 0 "[]" "") in
  Trainctl.output_format self = "json" /\
  spawned (fst (ResourceCommands.list (rt := Sample.runtime) self
                  (Some "aws") false (Some 5%Z) w)) =
  [["trainctl"; "resources"; "list"; "--platform"; "aws"; "--limit"; "5";
    "--output"; "json"]].
Proof.
  cbv zeta.
  split; [reflexivity|].
  apply (proj2 (resources_list_aws_5 (rt := Sample.runtime)
                  (Trainctl.mk "trainctl" "json")
                  (Sample.world (Exited 0 "[]" "")) eq_refl)).
Defined.

Lemma extend_if_falsy {A} (truthy : A -> bool) (opt : option A)
    (extra : A -> list string) (args : list string) :
  truthy_opt truthy opt = false -> extend_if truthy opt extra args = args.
Proof.
  destruct opt as [a|]; simpl; [|reflexivity].
  now intros ->.
Qed.

Lemma extend_if_keep_truthy {A} (truthy : A -> bool) (opt : option A)
    (extra : A -> list string) (args : list string) :
  extend_if truthy (keep_truthy truthy opt) extra args =
  extend_if truthy opt extra args.
Proof.
  destruct opt as [a|]; simpl; [|reflexivity].
  destruct (truthy a) eqn:E; simpl; [now rewrite E | reflexivity].
Qed.

(** C8. An optional parameter that is given a false value is handled as if
    it were not given, because every builder tests its optional parameters
    by truth value: whatever the call, the list is the one built with each
    false-valued optional left out. Parameter by parameter, a zero or
    negative-zero [spot_max_price], an empty [ami_id], [project_name],
    [data_s3] or [platform], an empty [args] and a zero [limit] build the
    list of the call without that parameter; so [limit=0],
    [spot_max_price=0.0] and [args=[]], the other optional parameters at
    their defaults, give lists with no [--limit], [--spot-max-price] or
    [--]. *)
Theorem falsy_optional_as_unset {rt : Runtime} :
  (forall c, build_args c = build_args (without_falsy c)) /\
  (forall instance_type spot ami_id project_name,
     AWSCommands.create_instance_args instance_type spot (Some 0%float)
                                      ami_id project_name =
     AWSCommands.create_instance_args instance_type spot None
                                      ami_id project_name) /\
  (forall instance_type spot ami_id project_name,
     AWSCommands.create_instance_args instance_type spot (Some (-0)%float)
                                      ami_id project_name =
     AWSCommands.create_instance_args instance_type spot None
                                      ami_id project_name) /\
  (forall instance_type spot spot_max_price project_name,
     AWSCommands.create_instance_args instance_type spot spot_max_price
                                      (Some "") project_name =
     AWSCommands.create_instance_args instance_type spot spot_max_price
                                      None project_name) /\
  (forall instance_type spot spot_max_price ami_id,
     AWSCommands.create_instance_args instance_type spot spot_max_price
                                      ami_id (Some "") =
     AWSCommands.create_instance_args instance_type spot spot_max_price
                                      ami_id None) /\
  (forall instance_id script sync_code project_name args,
     AWSCommands.train_args instance_id script (Some "") sync_code
                            project_name args =
     AWSCommands.train_args instance_id script None sync_code
                            project_name args) /\
  (forall instance_id script data_s3 sync_code args,
     AWSCommands.train_args instance_id script data_s3 sync_code
                            (Some "") args =
     AWSCommands.train_args instance_id script data_s3 sync_code
                            None args) /\
  (forall instance_id script data_s3 sync_code project_name,
     AWSCommands.train_args instance_id script data_s3 sync_code project_name
                            (Some []) =
     AWSCommands.train_args instance_id script data_s3 sync_code project_name
                            None) /\
  (forall detailed limit,
     ResourceCommands.list_args (Some "") detailed limit =
     ResourceCommands.list_args None detailed limit) /\
  (forall platform detailed,
     ResourceCommands.list_args platform detailed (Some 0%Z) =
     ResourceCommands.list_args platform detailed None) /\
  ResourceCommands.list_args None false (Some 0%Z) = ["resources"; "list"] /\
  (forall instance_type,
     AWSCommands.create_instance_args instance_type false (Some 0%float)
                                      None None =
     ["aws"; "create"; "--instance-type"; instance_type]) /\
  (forall instance_id script,
     AWSCommands.train_args instance_id script None false None (Some []) =
     ["aws"; "train"; instance_id; script]).
Proof.
  split.
  - intros c; destruct c; simpl; try reflexivity;
      unfold AWSCommands.create_instance_args, AWSCommands.train_args,
        ResourceCommands.list_args;
      now rewrite !extend_if_keep_truthy.
  - repeat split; intros; reflexivity.
Qed.

(** ** Binary resolution *)

(** C7. The binary an instance keeps is the one the locator of the
    specification names: an explicit path verbatim, whatever exists on the
    machine; otherwise the first that applies of the name on the search
    path, the release artifact, the debug artifact, and the bare name.
    [shutil.which] answers [None] or the path of an executable, never the
    empty string. *)
Theorem init_resolves_binary (w : World) (binary : option string)
    (output_format : string) :
  which w "trainctl" <> Some "" ->
  Trainctl.binary (Trainctl.__init__ w binary output_format) =
    resolve w binary /\
  (forall p, Trainctl.binary (Trainctl.__init__ w (Some p) output_format) = p).
Proof.
  intros Hwhich. split; [|reflexivity].
  destruct binary as [p|]; [reflexivity|].
  unfold Trainctl.__init__, resolve, on_search_path; simpl.
  destruct (which w "trainctl") as [[|c found]|]; simpl;
    [congruence | reflexivity |].
  destruct (path_exists w (Trainctl.target_bin w "release")); [reflexivity|].
  destruct (path_exists w (Trainctl.target_bin w "debug")); reflexivity.
Qed.

Lemma init_resolves_binary_witness :
  which Sample.world_debug_build "trainctl" <> Some "" /\
  Trainctl.binary (Trainctl.__init__ Sample.world_debug_build None "json") =
    "/repo/target/debug/trainctl" /\
  resolve Sample.world_debug_build None = "/repo/target/debug/trainctl".
Proof.
  assert (H : which Sample.world_debug_build "trainctl" <> Some "")
    by discriminate.
  split; [exact H|].
  split; [|reflexivity].
  rewrite (proj1 (init_resolves_binary Sample.world_debug_build None
                    "json" H)).
  reflexivity.
Defined.

(** ** Omitted optional parameters *)

Ltac split_cases :=
  repeat match goal with
  | H : context [match ?o with Some _ => _ | None => _ end] |- _ =>
      destruct o eqn:?
  | H : context [if ?b then _ else _] |- _ => destruct b eqn:?
  end.

Ltac unfold_builders :=
  unfold AWSCommands.create_instance_args, AWSCommands.train_args,
    AWSCommands.stop_args, AWSCommands.terminate_args,
    AWSCommands.monitor_args, AWSCommands.processes_args,
    ResourceCommands.list_args, ResourceCommands.stop_all_args,
    append_if, extend_if, flag_unless, flag_if_none in *.

(** C6, as amended. For each of the eight builders and each optional
    parameter left at its default, the builder puts no flag token for that
    parameter in the list: the token is not in the list, provided it is not
    one of the caller's own values (a positional parameter, the value of
    another option, a pass-through argument). *)
Theorem unset_flag_absent {rt : Runtime} (c : Call) (flag : string) :
  In flag (unset_flags c) ->
  ~ In flag (caller_values c) ->
  ~ In flag (build_args c).
Proof.
  intros Hunset Hvals Hin.
  destruct c; simpl in *; unfold_builders;
    split_cases; simpl in *; rewrite ?in_app_iff in *; simpl in *;
    intuition (subst; try discriminate; try congruence).
Qed.

Lemma unset_flag_absent_witness :
  let c := ResourcesList (Some "aws") false (Some 5%Z) in
  In "--detailed" (unset_flags c) /\
  ~ In "--detailed" (caller_values (rt := Sample.runtime) c) /\
  ~ In "--detailed" (build_args (rt := Sample.runtime) c).
Proof.
  cbv zeta.
  assert (Hunset : In "--detailed"
                     (unset_flags (ResourcesList (Some "aws") false
                                                 (Some 5%Z))))
    by (simpl; auto).
  assert (Hvals : ~ In "--detailed"
                      (caller_values (rt := Sample.runtime)
                         (ResourcesList (Some "aws") false (Some 5%Z))))
    by (simpl; intuition discriminate).
  split; [exact Hunset|].
  split; [exact Hvals|].
  exact (unset_flag_absent (rt := Sample.runtime) _ _ Hunset Hvals).
Defined.

(** C6 as stated fails when the token comes from the caller: [train] called
    without [data_s3] and with pass-through arguments for the script that
    hold [--data-s3] builds a list with that token in it. *)
Lemma unset_flag_present_counterexample :
  let c := Train "i-1" "train.py" None false None
                 (Some ["--data-s3"; "s3://bucket/data"]) in
  In "--data-s3" (unset_flags c) /\
  build_args (rt := Sample.runtime) c =
    ["aws"; "train"; "i-1"; "train.py"; "--";
     "--data-s3"; "s3://bucket/data"] /\
  In "--data-s3" (build_args (rt := Sample.runtime) c).
Proof.
  cbv zeta. split; [simpl; auto|]. split; [reflexivity|]. simpl; auto 10.
Qed.

(** ** The scenarios of the specification, run *)

Example decode_mapping :
  snd (Trainctl._run (rt := Sample.runtime) (Trainctl.mk "trainctl" "json")
         ["resources"; "summary"] true
         (Sample.world
            (Exited 0 ("{" ++ Sample.dq ++ "a" ++ Sample.dq ++ ": 1}") ""))) =
  Return (VDict [("a", VInt 1)]).
Proof. reflexivity. Qed.

Example stop_force :
  AWSCommands.stop_args "i-1" true = ["aws"; "stop"; "i-1"; "--force"].
Proof. reflexivity. Qed.

Example create_spot_instance :
  AWSCommands.create_instance_args (rt := Sample.runtime)
    "g4dn.xlarge" true (Some 0.5%float) None (Some "example") =
  ["aws"; "create"; "--instance-type"; "g4dn.xlarge"; "--spot";
   "--spot-max-price"; "0.5"; "--project-name"; "example"].
Proof. reflexivity. Qed.

Example train_with_script_arguments :
  AWSCommands.train_args "i-1234567890abcdef0" "training/train.py" None true
                         None (Some ["--epochs"; "10"]) =
  ["aws"; "train"; "i-1234567890abcdef0"; "training/train.py";
   "--sync-code"; "--"; "--epochs"; "10"].
Proof. reflexivity. Qed.

Example binary_on_search_path :
  Trainctl.binary
    (Trainctl.__init__
       (mkWorld (fun _ => NotFound) (fun _ => Some "/usr/bin/trainctl")
                (fun _ => true) (mkPath "" ["scripts"; "trainctl_wrapper.py"])
                [])
       None "json") = "trainctl".
Proof. reflexivity. Qed.

Example binary_from_release_build :
  Trainctl.binary
    (Trainctl.__init__
       (mkWorld (fun _ => NotFound) (fun _ => None)
                (fun _ => true) (mkPath "" ["scripts"; "trainctl_wrapper.py"])
                [])
       None "json") = "target/release/trainctl".
Proof. reflexivity. Qed.

(* ================================================================== *)
(** * Further properties of the facade *)

(** ** One process for each call *)

(** X1. Every public method hands exactly one command line to
    [subprocess.run], whatever comes of it: the binary, the arguments of the
    method, and the format pair under the JSON format. Nothing else of the
    machine changes and nothing is tried twice. *)
Theorem method_spawns_once {rt : Runtime}
    (m : Method) (self : Trainctl.t) (w : World) :
  fst (invoke m self w) = log_spawn w (Trainctl.command self (method_args m))
  /\ spawned (fst (invoke m self w)) =
     (spawned w ++
      [Trainctl.binary self :: method_args m ++
       (if Trainctl.output_format self =? "json"
        then ["--output"; "json"] else [])])%list.
Proof.
  assert (H : fst (invoke m self w) =
              log_spawn w (Trainctl.command self (method_args m))).
  { destruct m as [[]| | | |]; apply run_spawns. }
  split; [exact H|].
  rewrite H; unfold log_spawn, Trainctl.command; simpl.
  destruct (Trainctl.output_format self =? "json");
    [reflexivity | now rewrite app_nil_r].
Qed.

(** ** Which calls raise *)

(** A method is [_run] on its arguments, with [check] on for all but
    [version]. *)
Lemma invoke_run {rt : Runtime} (m : Method) (self : Trainctl.t) (w : World) :
  invoke m self w =
  Trainctl._run self (method_args m)
                (match m with Version => false | _ => true end) w.
Proof. destruct m as [[]| | | |]; reflexivity. Qed.

(** X2. Every public method other than [version] checks the exit code: a
    child that exits with a non-zero code makes it raise an error that
    carries the captured stderr. *)
Theorem method_raises_on_failure {rt : Runtime}
    (m : Method) (self : Trainctl.t) (w : World)
    (rc : Z) (out err : string) :
  m <> Version ->
  run_process w (Trainctl.command self (method_args m)) = Exited rc out err ->
  rc <> 0%Z ->
  exists msg,
    snd (invoke m self w) = Raise (TrainctlError msg) /\ contains err msg.
Proof.
  intros Hm Hrun Hrc. rewrite invoke_run.
  destruct m; try congruence;
    rewrite (run_nonzero_checked self _ w Hrun Hrc);
    (eexists; split; [reflexivity | apply contains_middle]).
Qed.

Lemma method_raises_on_failure_witness :
  let self := Trainctl.mk "trainctl" "json" in
  let w := Sample.world (Exited 3 "" "no such directory") in
  CheckpointList "runs/7" <> Version /\
  3%Z <> 0%Z /\
  exists msg,
    snd (invoke (rt := Sample.runtime) (CheckpointList "runs/7") self w) =
      Raise (TrainctlError msg) /\
    contains "no such directory" msg.
Proof.
  cbv zeta.
  split; [discriminate|].
  split; [discriminate|].
  apply (method_raises_on_failure (rt := Sample.runtime))
    with (rc := 3%Z) (out := ""); [discriminate | reflexivity | discriminate].
Defined.

Lemma run_unchecked_value {rt : Runtime}
    (self : Trainctl.t) (args : list string) (w : World)
    (rc : Z) (out err : string) :
  run_process w (Trainctl.command self args) = Exited rc out err ->
  (forall e, json_loads out = Raise e -> e = JSONDecodeError) ->
  exists v, Trainctl._run self args false w =
            (log_spawn w (Trainctl.command self args), Return v).
Proof.
  intros Hrun Hjson.
  destruct (Z.eq_dec rc 0) as [->|Hrc].
  - rewrite (run_zero self args w false Hrun); simpl.
    destruct (whitespace_only out); [eauto|].
    destruct (Trainctl.output_format self =? "json"); [|eauto].
    destruct (json_loads out) as [v|e] eqn:E; [eauto|].
    rewrite (Hjson e eq_refl); eauto.
  - rewrite (run_nonzero_unchecked self args w Hrun Hrc); simpl; eauto.
Qed.

(** X3. With [check] off a call never raises once the child has run, unless
    the decoder itself fails with something other than a decoding error: a
    non-zero exit, blank output and unparsable output all come back as
    values. In particular [version] returns a value for every exit code. *)
Theorem unchecked_run_returns {rt : Runtime}
    (self : Trainctl.t) (args : list string) (w : World)
    (rc : Z) (out err : string) :
  run_process w (Trainctl.command self args) = Exited rc out err ->
  (forall e, json_loads out = Raise e -> e = JSONDecodeError) ->
  (exists v, snd (Trainctl._run self args false w) = Return v) /\
  (args = ["--version"] ->
   exists v, snd (Trainctl.version self w) = Return v).
Proof.
  intros Hrun Hjson.
  destruct (run_unchecked_value self args w Hrun Hjson) as [v Hv].
  split; [|intros ->]; exists v; unfold Trainctl.version; now rewrite Hv.
Qed.

Lemma unchecked_run_returns_witness :
  let self := Trainctl.mk "trainctl" "json" in
  let w := Sample.world (Exited 2 "usage: trainctl" "unknown flag") in
  run_process w (Trainctl.command self ["--version"]) =
    Exited 2 "usage: trainctl" "unknown flag" /\
  (forall e, Json.loads "usage: trainctl" = Raise e -> e = JSONDecodeError) /\
  exists v, snd (Trainctl.version (rt := Sample.runtime) self w) = Return v.
Proof.
  cbv zeta.
  assert (Hjson : forall e, Json.loads "usage: trainctl" = Raise e ->
                            e = JSONDecodeError)
    by (intros e H; vm_compute in H; congruence).
  split; [reflexivity|].
  split; [exact Hjson|].
  exact (proj2 (unchecked_run_returns (rt := Sample.runtime)
                  (Trainctl.mk "trainctl" "json") ["--version"]
                  (Sample.world (Exited 2 "usage: trainctl" "unknown flag"))
                  eq_refl Hjson) eq_refl).
Defined.

(** X4. [check] decides the answer only when the child exits with a non-zero
    code: in every other case (exit code 0, a missing binary, a failed
    start) the call gives the same result with [check] on and off. *)
Theorem check_matters_only_on_failure {rt : Runtime}
    (self : Trainctl.t) (args : list string) (w : World) :
  (forall rc out err,
     run_process w (Trainctl.command self args) = Exited rc out err ->
     rc = 0%Z) ->
  Trainctl._run self args true w = Trainctl._run self args false w.
Proof.
  intros H.
  destruct (run_process w (Trainctl.command self args))
    as [|name|rc out err] eqn:E.
  - now rewrite !(run_not_found self args w _ E).
  - unfold Trainctl._run, Trainctl._run_try, subprocess_run. now rewrite E.
  - rewrite (H _ _ _ eq_refl) in E.
    now rewrite !(run_zero self args w _ E).
Qed.

Lemma check_matters_only_on_failure_witness :
  let self := Trainctl.mk "trainctl" "text" in
  let w := Sample.world (Exited 0 "3 instances" "") in
  (forall rc out err,
     run_process w (Trainctl.command self ["resources"; "summary"]) =
       Exited rc out err -> rc = 0%Z) /\
  Trainctl._run (rt := Sample.runtime) self ["resources"; "summary"] true w =
  Trainctl._run (rt := Sample.runtime) self ["resources"; "summary"] false w.
Proof.
  cbv zeta.
  assert (H : forall rc out err,
            run_process (Sample.world (Exited 0 "3 instances" ""))
              (Trainctl.command (Trainctl.mk "trainctl" "text")
                                ["resources"; "summary"]) =
              Exited rc out err -> rc = 0%Z)
    by (intros rc out err E; simpl in E; congruence).
  split; [exact H|].
  exact (check_matters_only_on_failure (rt := Sample.runtime) _ _ _ H).
Defined.

(** X5. Every [TrainctlError] comes from one of the two handlers of [_run]:
    its message is the not-found text with the binary and the installation
    hint, or the command-failed text with a stderr and the command line. The
    [raise] inside the [try] block (message "trainctl failed: ...") is never
    reached, because [subprocess.run] with [check] on has raised before.
    The decoder is taken not to raise the wrapper's own error class. *)
Theorem trainctl_error_messages {rt : Runtime}
    (self : Trainctl.t) (args : list string) (check : bool) (w : World)
    (msg : string) :
  (forall s m, json_loads s <> Raise (TrainctlError m)) ->
  snd (Trainctl._run self args check w) = Raise (TrainctlError msg) ->
  msg = "trainctl binary not found: " ++ Trainctl.binary self ++ nl ++
        "Install with: cargo install --path ."
  \/ exists err,
       msg = "trainctl command failed: " ++ err ++ nl ++
             "Command: " ++ join " " (Trainctl.command self args).
Proof.
  intros Hjson.
  destruct (run_process w (Trainctl.command self args))
    as [|name|rc out err] eqn:E.
  - rewrite (run_not_found self args w check E); simpl.
    intros H; inversion H; auto.
  - unfold Trainctl._run, Trainctl._run_try, subprocess_run.
    rewrite E; discriminate.
  - destruct (Z.eq_dec rc 0) as [->|Hrc].
    + rewrite (run_zero self args w check E); simpl.
      destruct (whitespace_only out); [discriminate|].
      destruct (Trainctl.output_format self =? "json"); [|discriminate].
      destruct (json_loads out) as [v|[]] eqn:Ej;
        intros H; try discriminate H; try (inversion H; eauto; fail).
      now elim (Hjson out msg0).
    + destruct check.
      * rewrite (run_nonzero_checked self args w E Hrc); simpl.
        intros H; inversion H; eauto.
      * rewrite (run_nonzero_unchecked self args w E Hrc); discriminate.
Qed.

Lemma sample_decoder_errors (s m : string) :
  Json.loads s <> Raise (TrainctlError m).
Proof.
  unfold Json.loads.
  destruct (Json.scan_once _ _) as [v rest| | |];
    [destruct (Json.skip_ws rest)| | |]; discriminate.
Qed.

Lemma trainctl_error_messages_witness :
  let self := Trainctl.mk "trainctl" "json" in
  let w := Sample.world (Exited 1 "" "quota exceeded") in
  let msg := "trainctl command failed: quota exceeded" ++ nl ++
             "Command: trainctl aws stop i-1 --output json" in
  (forall s m, Json.loads s <> Raise (TrainctlError m)) /\
  snd (Trainctl._run (rt := Sample.runtime) self ["aws"; "stop"; "i-1"]
                     true w) = Raise (TrainctlError msg) /\
  (msg = "trainctl binary not found: " ++ Trainctl.binary self ++ nl ++
         "Install with: cargo install --path ."
   \/ exists err,
        msg = "trainctl command failed: " ++ err ++ nl ++
              "Command: " ++
              join " " (Trainctl.command self ["aws"; "stop"; "i-1"])).
Proof.
  cbv zeta.
  split; [exact sample_decoder_errors|].
  split; [reflexivity|].
  exact (trainctl_error_messages (rt := Sample.runtime)
           (Trainctl.mk "trainctl" "json") ["aws"; "stop"; "i-1"] true
           (Sample.world (Exited 1 "" "quota exceeded"))
           sample_decoder_errors eq_refl).
Defined.

(** ** Decoding *)

(** X6. Under the JSON format, after exit code 0, an output that
    [json.loads] accepts is returned as decoded, whatever it is: a list or a
    number comes back as such, not wrapped in a mapping. *)
Theorem run_json_parsed {rt : Runtime}
    (self : Trainctl.t) (args : list string) (check : bool) (w : World)
    (out err : string) (v : value) :
  Trainctl.output_format self = "json" ->
  run_process w (Trainctl.command self args) = Exited 0 out err ->
  whitespace_only out = false ->
  json_loads out = Return v ->
  Trainctl._run self args check w =
  (log_spawn w (Trainctl.command self args), Return v).
Proof.
  intros Hfmt Hrun Hout Hjson.
  now rewrite (run_zero self args w check Hrun), Hout, Hfmt, Hjson.
Qed.

Lemma run_json_parsed_witness :
  let self := Trainctl.mk "trainctl" "json" in
  let w := Sample.world (Exited 0 "[1, 2]" "") in
  Trainctl.output_format self = "json" /\
  whitespace_only "[1, 2]" = false /\
  Json.loads "[1, 2]" = Return (VList [VInt 1; VInt 2]) /\
  Trainctl._run (rt := Sample.runtime) self ["resources"; "list"] true w =
  (log_spawn w ["trainctl"; "resources"; "list"; "--output"; "json"],
   Return (VList [VInt 1; VInt 2])).
Proof.
  cbv zeta.
  repeat (split; [reflexivity|]).
  apply (run_json_parsed (rt := Sample.runtime))
    with (out := "[1, 2]") (err := ""); reflexivity.
Defined.

(** X7. One of the two captured streams is always thrown away: after exit
    code 0 the result does not depend on stderr, and after a non-zero exit it
    does not depend on stdout. *)
Theorem unused_stream_discarded {rt : Runtime}
    (self : Trainctl.t) (args : list string) (check : bool) (w w' : World)
    (rc : Z) (out out' err err' : string) :
  run_process w (Trainctl.command self args) = Exited rc out err ->
  run_process w' (Trainctl.command self args) = Exited rc out' err' ->
  (rc = 0%Z -> out = out') /\ (rc <> 0%Z -> err = err') ->
  snd (Trainctl._run self args check w) =
  snd (Trainctl._run self args check w').
Proof.
  intros Hw Hw' [Hout Herr].
  destruct (Z.eq_dec rc 0) as [->|Hrc].
  - rewrite (run_zero self args w check Hw),
            (run_zero self args w' check Hw'), (Hout eq_refl).
    reflexivity.
  - destruct check.
    + rewrite (run_nonzero_checked self args w Hw Hrc),
              (run_nonzero_checked self args w' Hw' Hrc), (Herr Hrc).
      reflexivity.
    + rewrite (run_nonzero_unchecked self args w Hw Hrc),
              (run_nonzero_unchecked self args w' Hw' Hrc), (Herr Hrc).
      reflexivity.
Qed.

Lemma unused_stream_discarded_witness :
  let self := Trainctl.mk "trainctl" "text" in
  let w := Sample.world (Exited 0 "done" "") in
  let w' := Sample.world (Exited 0 "done" "warning: spot price is high") in
  ((0%Z = 0%Z -> "done" = "done") /\
   (0%Z <> 0%Z -> "" = "warning: spot price is high")) /\
  snd (Trainctl._run (rt := Sample.runtime) self ["aws"; "stop"; "i-1"]
                     true w) =
  snd (Trainctl._run (rt := Sample.runtime) self ["aws"; "stop"; "i-1"]
                     true w').
Proof.
  cbv zeta.
  assert (H : (0%Z = 0%Z -> "done" = "done") /\
              (0%Z <> 0%Z -> "" = "warning: spot price is high"))
    by (split; [reflexivity | intros H; now elim H]).
  split; [exact H|].
  exact (unused_stream_discarded (rt := Sample.runtime)
           (Trainctl.mk "trainctl" "text") ["aws"; "stop"; "i-1"] true
           (Sample.world (Exited 0 "done" ""))
           (Sample.world (Exited 0 "done" "warning: spot price is high"))
           eq_refl eq_refl H).
Defined.

(** ** What the builders put in the list *)

Section Segments.
Variable req : list string.

Lemma begins_refl : begins req req.
Proof. exists []; now rewrite app_nil_r. Qed.

Lemma begins_app args more :
  begins req args -> begins req (args ++ more)%list.
Proof. intros [rest ->]. exists (rest ++ more)%list. now rewrite app_assoc. Qed.

Lemma begins_append_if b t args :
  begins req args -> begins req (append_if b t args).
Proof. destruct b; simpl; [apply begins_app | trivial]. Qed.

Lemma begins_extend_if {A} (truthy : A -> bool) o extra args :
  begins req args -> begins req (extend_if truthy o extra args).
Proof.
  destruct o as [a|]; simpl; [|trivial].
  destruct (truthy a); [apply begins_app | trivial].
Qed.

Lemma holds_app seg args more :
  holds req seg args -> holds req seg (args ++ more)%list.
Proof.
  intros (mid & post & ->). exists mid, (post ++ more)%list.
  now rewrite <- !app_assoc.
Qed.

Lemma holds_new seg args : begins req args -> holds req seg (args ++ seg)%list.
Proof.
  intros [rest ->]. exists rest, [].
  now rewrite app_nil_r, <- app_assoc.
Qed.

Lemma holds_append_if seg b t args :
  holds req seg args -> holds req seg (append_if b t args).
Proof. destruct b; simpl; [apply holds_app | trivial]. Qed.

Lemma holds_extend_if {A} seg (truthy : A -> bool) o extra args :
  holds req seg args -> holds req seg (extend_if truthy o extra args).
Proof.
  destruct o as [a|]; simpl; [|trivial].
  destruct (truthy a); [apply holds_app | trivial].
Qed.

Lemma holds_switch seg b t args :
  begins req args -> In seg (switch_segment b t) ->
  holds req seg (append_if b t args).
Proof.
  destruct b; simpl; [|tauto].
  intros Hb [<-|[]]. now apply holds_new.
Qed.

Lemma holds_option {A} seg (truthy : A -> bool) o extra args :
  begins req args -> In seg (option_segment truthy o extra) ->
  holds req seg (extend_if truthy o extra args).
Proof.
  destruct o as [a|]; simpl; [|tauto].
  destruct (truthy a); simpl; [|tauto].
  intros Hb [<-|[]]. now apply holds_new.
Qed.

End Segments.

Create HintDb segments.
#[local] Hint Resolve begins_refl begins_append_if begins_extend_if
  holds_append_if holds_extend_if holds_switch holds_option : segments.

Lemma append_if_segment (b : bool) (t : string) (args : list string) :
  append_if b t args = (args ++ concat (switch_segment b t))%list.
Proof. destruct b; simpl; [reflexivity | now rewrite app_nil_r]. Qed.

Lemma extend_if_segment {A} (truthy : A -> bool) (opt : option A)
    (extra : A -> list string) (args : list string) :
  extend_if truthy opt extra args =
  (args ++ concat (option_segment truthy opt extra))%list.
Proof.
  destruct opt as [a|]; simpl; [|now rewrite app_nil_r].
  destruct (truthy a); simpl; now rewrite app_nil_r.
Qed.

(** X8. For every call of a builder, with or without options, the list is
    the subcommand path and the positional parameters followed by the runs
    of the optional parameters that are set, in the order of the source, and
    nothing else. So the list always begins with the subcommand path and the
    positional parameters, and every optional parameter that is set is in it
    as one unbroken run after them: a switch as its flag, a valued option as
    its flag directly followed by its value, the pass-through arguments of
    [train] as the separator directly followed by them. *)
Theorem set_option_present {rt : Runtime} (c : Call) :
  build_args c = (required_args c ++ concat (set_segments c))%list /\
  (exists rest, build_args c = (required_args c ++ rest)%list) /\
  (forall seg,
     In seg (set_segments c) ->
     exists mid post,
       build_args c = (required_args c ++ mid ++ seg ++ post)%list).
Proof.
  split; [|split].
  - destruct c; simpl;
      unfold AWSCommands.create_instance_args, AWSCommands.train_args,
        AWSCommands.stop_args, AWSCommands.terminate_args,
        AWSCommands.monitor_args, AWSCommands.processes_args,
        ResourceCommands.list_args, ResourceCommands.stop_all_args;
      cbv zeta;
      rewrite ?append_if_segment, ?extend_if_segment, ?concat_app,
        <- ?app_assoc;
      reflexivity.
  - change (begins (required_args c) (build_args c)).
    destruct c; simpl;
      unfold AWSCommands.create_instance_args, AWSCommands.train_args,
        AWSCommands.stop_args, AWSCommands.terminate_args,
        AWSCommands.monitor_args, AWSCommands.processes_args,
        ResourceCommands.list_args, ResourceCommands.stop_all_args;
      cbv zeta; eauto 10 with segments.
  - intros seg H.
    change (holds (required_args c) seg (build_args c)).
    destruct c; simpl in *; rewrite ?in_app_iff in H;
      unfold AWSCommands.create_instance_args, AWSCommands.train_args,
        AWSCommands.stop_args, AWSCommands.terminate_args,
        AWSCommands.monitor_args, AWSCommands.processes_args,
        ResourceCommands.list_args, ResourceCommands.stop_all_args;
      cbv zeta;
      intuition eauto 10 with segments.
Qed.

Lemma set_option_present_witness :
  let c := CreateInstance "g4dn.xlarge" true None (Some "ami-0abc") None in
  In ["--ami-id"; "ami-0abc"] (set_segments (rt := Sample.runtime) c) /\
  build_args (rt := Sample.runtime) (Stop "i-1" false) =
    ["aws"; "stop"; "i-1"] /\
  exists mid post,
    build_args (rt := Sample.runtime) c =
    (required_args c ++ mid ++ ["--ami-id"; "ami-0abc"] ++ post)%list.
Proof.
  cbv zeta.
  assert (H : In ["--ami-id"; "ami-0abc"]
                (set_segments (rt := Sample.runtime)
                   (CreateInstance "g4dn.xlarge" true None
                                   (Some "ami-0abc") None)))
    by (simpl; auto).
  split; [exact H|].
  split.
  - exact (proj1 (set_option_present (rt := Sample.runtime)
                    (Stop "i-1" false))).
  - exact (proj2 (proj2 (set_option_present (rt := Sample.runtime)
                           (CreateInstance "g4dn.xlarge" true None
                                           (Some "ami-0abc") None)))
             _ H).
Defined.

Ltac split_goal_cases :=
  repeat match goal with
  | |- context [match ?o with Some _ => _ | None => _ end] => destruct o eqn:?
  | |- context [if ?b then _ else _] => destruct b eqn:?
  end.

(** X9. No text of the caller with a true value is lost: every positional
    parameter, every value of a set option and every pass-through argument
    is a token of the list. *)
Theorem caller_values_kept {rt : Runtime} (c : Call) (v : string) :
  In v (caller_values c) -> In v (build_args c).
Proof.
  intros H.
  destruct c; simpl in *; unfold_builders;
    split_cases; split_goal_cases; simpl in *;
    rewrite ?in_app_iff in *; simpl in *;
    intuition (auto; congruence).
Qed.

Lemma caller_values_kept_witness :
  let c := Train "i-1" "train.py" (Some "s3://bucket/data") false None
                 (Some ["--epochs"; "10"]) in
  In "10" (caller_values (rt := Sample.runtime) c) /\
  In "10" (build_args (rt := Sample.runtime) c).
Proof.
  cbv zeta.
  assert (H : In "10"
                (caller_values (rt := Sample.runtime)
                   (Train "i-1" "train.py" (Some "s3://bucket/data") false
                          None (Some ["--epochs"; "10"]))))
    by (simpl; auto 10).
  split; [exact H|].
  exact (caller_values_kept (rt := Sample.runtime) _ _ H).
Defined.

(** X10. The pass-through arguments of [train] close the argument list, so
    under the JSON format the pair [--output json] that [_run] appends comes
    after the separator, next to the arguments meant for the script. *)
Theorem train_format_pair_after_separator
    (self : Trainctl.t) (instance_id script : string)
    (data_s3 : option string) (sync_code : bool)
    (project_name : option string) (args : list string) :
  Trainctl.output_format self = "json" ->
  args <> [] ->
  Trainctl.command self
    (AWSCommands.train_args instance_id script data_s3 sync_code project_name
                            (Some args)) =
  (Trainctl.binary self ::
   AWSCommands.train_args instance_id script data_s3 sync_code project_name
                          None ++
   ["--"] ++ args ++ ["--output"; "json"])%list.
Proof.
  intros Hfmt Hargs.
  unfold Trainctl.command, AWSCommands.train_args. rewrite Hfmt.
  destruct args as [|a args]; [congruence|]. simpl.
  now rewrite <- !app_assoc.
Qed.

Lemma train_format_pair_after_separator_witness :
  let self := Trainctl.mk "trainctl" "json" in
  Trainctl.output_format self = "json" /\
  ["--epochs"; "10"] <> [] /\
  Trainctl.command self
    (AWSCommands.train_args "i-1" "train.py" None true None
                            (Some ["--epochs"; "10"])) =
  ["trainctl"; "aws"; "train"; "i-1"; "train.py"; "--sync-code";
   "--"; "--epochs"; "10"; "--output"; "json"].
Proof.
  cbv zeta.
  assert (H : ["--epochs"; "10"] <> (@nil string)) by discriminate.
  split; [reflexivity|].
  split; [exact H|].
  exact (train_format_pair_after_separator
           (Trainctl.mk "trainctl" "json") "i-1" "train.py" None true None
           eq_refl H).
Defined.

(** ** The convenience function and the scripts *)

Lemma init_default_binary (w : World) (output_format : string) :
  which w "trainctl" <> Some "" ->
  Trainctl.__init__ w None output_format =
  Trainctl.mk (resolve w None) output_format.
Proof.
  intros Hwhich.
  unfold Trainctl.__init__, resolve, on_search_path; simpl.
  destruct (which w "trainctl") as [[|c found]|]; simpl;
    [congruence | reflexivity |].
  destruct (path_exists w (Trainctl.target_bin w "release")); [reflexivity|].
  destruct (path_exists w (Trainctl.target_bin w "debug")); reflexivity.
Qed.

(** X11. The module-level [create_instance] makes a facade of its own for
    each call: the binary is looked up again, the format is JSON and the exit
    code is checked. The command line it runs is the resolved binary, the
    arguments of [aws create] and the pair [--output json], and a non-zero
    exit raises. *)
Theorem quick_create_instance {rt : Runtime} (w : World)
    (instance_type : string) (spot : bool) (spot_max_price : option float)
    (ami_id project_name : option string) :
  which w "trainctl" <> Some "" ->
  let cmd :=
    (resolve w None ::
     AWSCommands.create_instance_args instance_type spot spot_max_price
                                      ami_id project_name ++
     ["--output"; "json"])%list in
  fst (create_instance w instance_type spot spot_max_price ami_id
                       project_name) = log_spawn w cmd /\
  (forall rc out err,
     run_process w cmd = Exited rc out err -> rc <> 0%Z ->
     exists msg,
       snd (create_instance w instance_type spot spot_max_price ami_id
                            project_name) = Raise (TrainctlError msg) /\
       contains err msg).
Proof.
  intros Hwhich cmd.
  unfold create_instance, AWSCommands.create_instance.
  rewrite (init_default_binary w "json" Hwhich).
  split; [now rewrite run_spawns|].
  intros rc out err Hrun Hrc.
  rewrite (run_nonzero_checked (Trainctl.mk (resolve w None) "json") _ w
             Hrun Hrc).
  eexists; split; [reflexivity | apply contains_middle].
Qed.

Lemma quick_create_instance_witness :
  let w := Sample.world_debug_build in
  which w "trainctl" <> Some "" /\
  fst (create_instance (rt := Sample.runtime) w "g4dn.xlarge" true None None
                       (Some "demo")) =
  log_spawn w ["/repo/target/debug/trainctl"; "aws"; "create";
               "--instance-type"; "g4dn.xlarge"; "--spot";
               "--project-name"; "demo"; "--output"; "json"].
Proof.
  cbv zeta.
  assert (H : which Sample.world_debug_build "trainctl" <> Some "")
    by discriminate.
  split; [exact H|].
  exact (proj1 (quick_create_instance (rt := Sample.runtime)
                  Sample.world_debug_build "g4dn.xlarge" true None None
                  (Some "demo") H)).
Defined.

Lemma parent_joinpath (p : Path) (name : string) :
  parent (joinpath p name) = p.
Proof.
  destruct p as [a ps]; unfold parent, joinpath; simpl.
  now rewrite removelast_last.
Qed.

(** X12. The build artifacts are looked for two directories above the
    wrapper module: for a module file [root/dir/file] they are
    [root/target/release/trainctl] and [root/target/debug/trainctl]. When
    the module path has no directory part (at most one component) they are
    looked for under [target] in the directory of the module itself. *)
Theorem target_bin_location (w : World) (profile : string) :
  (forall root dir file,
     module_file w = joinpath (joinpath root dir) file ->
     Trainctl.target_bin w profile =
     joinpath (joinpath (joinpath root "target") profile) "trainctl") /\
  ((List.length (parts (module_file w)) <= 1)%nat ->
   Trainctl.target_bin w profile =
   mkPath (anchor (module_file w)) ["target"; profile; "trainctl"]).
Proof.
  split.
  - intros root dir file H. unfold Trainctl.target_bin.
    now rewrite H, !parent_joinpath.
  - intros H. unfold Trainctl.target_bin.
    destruct (module_file w) as [a [|x [|y ps]]]; simpl in *;
      [reflexivity | reflexivity | lia].
Qed.

Lemma target_bin_location_witness :
  let w := Sample.world NotFound in
  module_file w =
    joinpath (joinpath (mkPath "/" ["repo"]) "scripts")
             "trainctl_wrapper.py" /\
  str_path (Trainctl.target_bin w "release") =
    "/repo/target/release/trainctl".
Proof.
  cbv zeta.
  split; [reflexivity|].
  rewrite (proj1 (target_bin_location (Sample.world NotFound) "release")
             (mkPath "/" ["repo"]) "scripts" "trainctl_wrapper.py" eq_refl).
  reflexivity.
Defined.

(** X13. Run as a script with a command, the wrapper passes on exactly the
    words after the script name, with [check] off: once the child has run
    the script prints one document and ends with status 0, whatever the exit
    code of the child was. A missing binary ends it with the uncaught error.
    Without a command it prints the three lines of the usage and nothing
    else, runs nothing and ends with status 1. *)
Theorem wrapper_main_status {rt : Runtime}
    (argv : list string) (w : World) (out : console) :
  which w "trainctl" <> Some "" ->
  let cmd := (resolve w None :: tl argv ++ ["--output"; "json"])%list in
  ((2 <= List.length argv)%nat ->
   forall rc so se,
     run_process w cmd = Exited rc so se ->
     (forall e, json_loads so = Raise e -> e = JSONDecodeError) ->
     exists v,
       wrapper_main argv w out =
       (log_spawn w cmd, print out [Dumps v], Exit 0)) /\
  ((2 <= List.length argv)%nat ->
   run_process w cmd = NotFound ->
   exists msg,
     wrapper_main argv w out =
     (log_spawn w cmd, out, Uncaught (TrainctlError msg))) /\
  ((List.length argv < 2)%nat ->
   wrapper_main argv w out =
   (w,
    (out ++
     [[Lit "Usage: python trainctl_wrapper.py <command> [args...]"];
      [Lit (nl ++ "Example:")];
      [Lit ("  python trainctl_wrapper.py aws create " ++
            "--instance-type g4dn.xlarge")]])%list,
    Exit 1)).
Proof.
  intros Hwhich cmd.
  unfold wrapper_main. rewrite (init_default_binary w "json" Hwhich).
  split; [|split].
  - intros Hlen rc so se Hrun Hjson.
    apply Nat.ltb_ge in Hlen; rewrite Hlen.
    destruct (run_unchecked_value (Trainctl.mk (resolve w None) "json")
                (tl argv) w Hrun Hjson) as [v Hv].
    exists v. now rewrite Hv.
  - intros Hlen Hrun.
    apply Nat.ltb_ge in Hlen; rewrite Hlen.
    rewrite (run_not_found (Trainctl.mk (resolve w None) "json")
               (tl argv) w false Hrun).
    eexists; reflexivity.
  - intros Hlen. apply Nat.ltb_lt in Hlen; rewrite Hlen.
    unfold print. now rewrite <- !app_assoc.
Qed.

Lemma wrapper_main_status_witness :
  let w := Sample.world (Exited 1 "" "quota exceeded") in
  let argv := ["trainctl_wrapper.py"; "aws"; "create";
               "--instance-type"; "g4dn.xlarge"] in
  which w "trainctl" <> Some "" /\
  (2 <= List.length argv)%nat /\
  (forall e, Json.loads "" = Raise e -> e = JSONDecodeError) /\
  (exists v,
     wrapper_main (rt := Sample.runtime) argv w [] =
     (log_spawn w ["trainctl"; "aws"; "create"; "--instance-type";
                   "g4dn.xlarge"; "--output"; "json"],
      [[Dumps v]], Exit 0)) /\
  (List.length ["trainctl_wrapper.py"] < 2)%nat /\
  wrapper_main (rt := Sample.runtime) ["trainctl_wrapper.py"] w [] =
  (w,
   [[Lit "Usage: python trainctl_wrapper.py <command> [args...]"];
    [Lit (nl ++ "Example:")];
    [Lit ("  python trainctl_wrapper.py aws create " ++
          "--instance-type g4dn.xlarge")]],
   Exit 1).
Proof.
  cbv zeta.
  assert (Hwhich : which (Sample.world (Exited 1 "" "quota exceeded"))
                         "trainctl" <> Some "") by discriminate.
  assert (Hlen : (2 <= List.length ["trainctl_wrapper.py"; "aws"; "create";
                                    "--instance-type"; "g4dn.xlarge"])%nat)
    by (simpl; lia).
  assert (Hjson : forall e, Json.loads "" = Raise e -> e = JSONDecodeError)
    by (intros e H; vm_compute in H; congruence).
  split; [exact Hwhich|].
  split; [exact Hlen|].
  assert (Hshort : (List.length ["trainctl_wrapper.py"] < 2)%nat)
    by (simpl; lia).
  split; [exact Hjson|].
  split; [|split; [exact Hshort|]].
  - exact (proj1 (wrapper_main_status (rt := Sample.runtime) _
                    (Sample.world (Exited 1 "" "quota exceeded")) [] Hwhich)
             Hlen 1%Z "" "quota exceeded" eq_refl Hjson).
  - exact (proj2 (proj2 (wrapper_main_status (rt := Sample.runtime)
                           ["trainctl_wrapper.py"]
                           (Sample.world (Exited 1 "" "quota exceeded")) []
                           Hwhich))
             Hshort).
Defined.

Section UsageExample.
Context {rt : Runtime}.
Variables (w : World) (out : console).
Hypothesis Hwhich : which w "trainctl" <> Some "".

Let version_cmd : list string :=
  [resolve w None; "--version"; "--output"; "json"].
Let list_cmd : list string :=
  [resolve w None; "resources"; "list"; "--platform"; "aws"; "--limit"; "5";
   "--output"; "json"].

(** X14. When trainctl cannot be found, [main] of the usage example stops
    after the version query: it has tried one command line, printed the
    error after its two opening lines and nothing more, and returns without
    raising. *)
Theorem usage_main_without_binary :
  run_process w version_cmd = NotFound ->
  PythonUsage.main w out =
  (log_spawn w version_cmd,
   (out ++
    [[Lit ("=== trainctl Python Wrapper Example ===" ++ nl)];
     [Lit "1. Checking trainctl version..."];
     [Lit "   Error: ";
      Lit ("trainctl binary not found: " ++ resolve w None ++ nl ++
           "Install with: cargo install --path .");
      Lit nl]])%list,
   Return tt).
Proof.
  intros Hrun.
  unfold PythonUsage.main. rewrite (init_default_binary w "json" Hwhich).
  unfold Trainctl.version.
  rewrite (run_not_found (Trainctl.mk (resolve w None) "json")
             ["--version"] w false Hrun).
  unfold print; simpl. now rewrite <- !app_assoc.
Qed.

(** X15. When the version query runs, whatever its exit code, and the
    decoder fails on its output with a decoding error at most, [main] goes
    on to list the resources: it hands two command lines to
    [subprocess.run], the version query and then
    [resources list --platform aws --limit 5], both with the pair
    [--output json], whatever comes of the second. *)
Theorem usage_main_both_queries (rc : Z) (so se : string) :
  run_process w version_cmd = Exited rc so se ->
  (forall e, json_loads so = Raise e -> e = JSONDecodeError) ->
  spawned (fst (fst (PythonUsage.main w out))) =
  (spawned w ++ [version_cmd; list_cmd])%list.
Proof.
  intros Hrun Hjson.
  unfold PythonUsage.main. rewrite (init_default_binary w "json" Hwhich).
  unfold Trainctl.version.
  destruct (run_unchecked_value (Trainctl.mk (resolve w None) "json")
              ["--version"] w Hrun Hjson) as [v Hv].
  rewrite Hv.
  pose proof (run_spawns (Trainctl.mk (resolve w None) "json")
                (ResourceCommands.list_args (Some "aws") false (Some 5%Z))
                (log_spawn w
                   (Trainctl.command (Trainctl.mk (resolve w None) "json")
                                     ["--version"])) true) as Hs.
  unfold ResourceCommands.list.
  destruct (Trainctl._run _ _ true _) as [w2 [r|[]]]; simpl in Hs; subst w2;
    simpl; now rewrite <- app_assoc.
Qed.

(** X16. No [TrainctlError] leaves [main]: each of the two queries is under
    a handler for it. *)
Theorem usage_main_handles_errors (msg : string) :
  snd (PythonUsage.main w out) <> Raise (TrainctlError msg).
Proof.
  unfold PythonUsage.main.
  destruct (Trainctl.version _ w) as [w1 [v|[]]]; simpl; try discriminate.
  destruct (ResourceCommands.list _ _ _ _ w1) as [w2 [r|[]]]; simpl;
    discriminate.
Qed.

End UsageExample.

Lemma usage_main_without_binary_witness :
  let w := Sample.world NotFound in
  which w "trainctl" <> Some "" /\
  run_process w ["trainctl"; "--version"; "--output"; "json"] = NotFound /\
  PythonUsage.main (rt := Sample.runtime) w [] =
  (log_spawn w ["trainctl"; "--version"; "--output"; "json"],
   [[Lit ("=== trainctl Python Wrapper Example ===" ++ nl)];
    [Lit "1. Checking trainctl version..."];
    [Lit "   Error: ";
     Lit ("trainctl binary not found: trainctl" ++ nl ++
          "Install with: cargo install --path .");
     Lit nl]],
   Return tt).
Proof.
  cbv zeta.
  assert (H : which (Sample.world NotFound) "trainctl" <> Some "")
    by discriminate.
  split; [exact H|].
  split; [reflexivity|].
  exact (@usage_main_without_binary Sample.runtime
           (Sample.world NotFound) [] H eq_refl).
Defined.

Lemma usage_main_both_queries_witness :
  let w := Sample.world (Exited 2 "" "unknown flag") in
  which w "trainctl" <> Some "" /\
  (forall e, Json.loads "" = Raise e -> e = JSONDecodeError) /\
  spawned (fst (fst (PythonUsage.main (rt := Sample.runtime) w []))) =
  [["trainctl"; "--version"; "--output"; "json"];
   ["trainctl"; "resources"; "list"; "--platform"; "aws"; "--limit"; "5";
    "--output"; "json"]].
Proof.
  cbv zeta.
  assert (H : which (Sample.world (Exited 2 "" "unknown flag")) "trainctl"
              <> Some "") by discriminate.
  assert (Hjson : forall e, Json.loads "" = Raise e -> e = JSONDecodeError)
    by (intros e He; vm_compute in He; congruence).
  split; [exact H|].
  split; [exact Hjson|].
  exact (@usage_main_both_queries Sample.runtime
           (Sample.world (Exited 2 "" "unknown flag")) [] H
           2%Z "" "unknown flag" eq_refl Hjson).
Defined.

Lemma usage_main_handles_errors_witness :
  let w := Sample.world (Exited 1 "" "quota exceeded") in
  snd (PythonUsage.main (rt := Sample.runtime) w []) = Return tt /\
  snd (PythonUsage.main (rt := Sample.runtime) w []) <>
    Raise (TrainctlError "quota exceeded").
Proof.
  cbv zeta.
  split; [reflexivity|].
  exact (@usage_main_handles_errors Sample.runtime
           (Sample.world (Exited 1 "" "quota exceeded")) []
           "quota exceeded").
Defined.
